(** * GeckoTerminal API wrapper: request dispatch and error normalisation

    A shallow embedding of [src/geckoterminal.ts] (class [GeckoTerminal]).
    Every endpoint method is a function from its arguments and the log of
    requests issued so far to a promise and the extended log.  JavaScript
    values are an inductive type, exceptions an error monad, promises a
    settlement time with an outcome.

    The positional arguments of a method (network, addresses, query) are
    raw values, since the methods test them at run time ([!network],
    [Array.isArray]); the option bags follow their interfaces in
    [types.ts]. *)

From stdpp Require Import base strings gmap list pretty.
From Stdlib Require Import ZArith Lia.

Set Warnings "-register-all".
Local Open Scope Z_scope.
Local Open Scope string_scope.

(** ** JavaScript values *)

(** The values the client handles: JSON documents, arguments, [Error]
    objects.  A number is an integer (status codes, page numbers,
    timestamps, counts); the fractional numbers of the OHLCV mock are kept
    apart, in [JsNumber] below.  An object is the list of its own
    properties in insertion order. *)
Inductive value : Type :=
| VUndef
| VNull
| VBool (b : bool)
| VNum (n : Z)
| VStr (s : string)
| VArr (items : list value)
| VObj (fields : list (string * value)).

Module Js.

(** [!!v] of JavaScript: [ToBoolean]. *)
Definition truthy (v : value) : bool :=
    match v with
    | VUndef | VNull => false
    | VBool b => b
    | VNum n => negb (n =? 0)%Z
    | VStr s => negb (String.eqb s "")
    | VArr _ | VObj _ => true
    end.

(** [v === undefined] *)
Definition is_undefined (v : value) : bool :=
  match v with VUndef => true | _ => false end.

(** [a || b] *)
Definition or_else (a b : value) : value := if truthy a then a else b.

(** [Array.isArray(v)] *)
Definition isArray (v : value) : bool :=
    match v with VArr _ => true | _ => false end.

(** The elements of an array value (no elements for anything else). *)
Definition items (v : value) : list value :=
    match v with VArr l => l | _ => [] end.

(** [String(v)], the conversion of template literals; an element of a
      joined array that is [undefined] or [null] prints as nothing. *)
Fixpoint to_string (v : value) : string :=
    match v with
    | VUndef => "undefined"
    | VNull => "null"
    | VBool true => "true"
    | VBool false => "false"
    | VNum n => pretty n
    | VStr s => s
    | VArr l =>
        String.concat ","
          (map (fun x => match x with
                         | VUndef | VNull => ""
                         | _ => to_string x
                         end) l)
    | VObj _ => "[object Object]"
    end.

Definition join_item (x : value) : string :=
    match x with VUndef | VNull => "" | _ => to_string x end.

(** [l.join(sep)] *)
Definition join (sep : string) (l : list value) : string :=
    String.concat sep (map join_item l).

(** Own property of an object, [undefined] when it has none. *)
Fixpoint field (k : string) (fs : list (string * value)) : value :=
    match fs with
    | [] => VUndef
    | (k', v) :: rest => if String.eqb k k' then v else field k rest
    end.

(** Default of a destructuring pattern or parameter: [x = d]. *)
Definition with_default (d : value) (v : value) : value :=
    match v with VUndef => d | _ => v end.

Definition opt_str (o : option string) : value :=
    match o with Some s => VStr s | None => VUndef end.

Definition opt_num (o : option Z) : value :=
    match o with Some n => VNum n | None => VUndef end.

(** [new Error(message)] *)
Definition new_Error (message : string) : value :=
    VObj [("message", VStr message)].

(** [e.k = v] on an object without property [k]. *)
Definition set_field (k : string) (v : value) (e : value) : value :=
    match e with
    | VObj fs => VObj (fs ++ [(k, v)])
    | _ => e
    end.

(** The [TypeError] the engine raises; its message is the engine's. *)
Definition TypeError : value := VObj [("name", VStr "TypeError")].

End Js.

(** ** Exceptions *)

(** A synchronous computation returns or throws. *)
Inductive throws (A : Type) : Type :=
| Ok (a : A)
| Throw (e : value).
Arguments Ok {A} a.
Arguments Throw {A} e.

#[global] Instance throws_ret : MRet throws := fun A a => Ok a.
#[global] Instance throws_bind : MBind throws := fun A B f m =>
  match m with Ok a => f a | Throw e => Throw e end.

Module JsProp.

(** [v.k]: a [TypeError] on [undefined] and [null]; none of the
      properties the client reads ([data], [included], [errors], [detail],
      [title], [response], [request], [status], [id], [attributes], ...)
      exists on a string, number, boolean or array, where the read gives
      [undefined]. *)
Definition get (v : value) (k : string) : throws value :=
    match v with
    | VUndef | VNull => Throw Js.TypeError
    | VObj fs => Ok (Js.field k fs)
    | _ => Ok VUndef
    end.

(** [v.map(f)]: only arrays have [map]. *)
Fixpoint map_items (f : value -> throws value) (l : list value)
    : throws (list value) :=
    match l with
    | [] => Ok []
    | x :: rest =>
        y ← f x;
        ys ← map_items f rest;
        Ok (y :: ys)
    end.

Definition map (v : value) (f : value -> throws value) : throws value :=
    match v with
    | VArr l => l' ← map_items f l; Ok (VArr l')
    | _ => Throw Js.TypeError
    end.

End JsProp.


(** ** Fractional numbers

    [getPoolOhlcv] computes with fractional numbers ([parseFloat],
    products, sums, [Number.prototype.toString]).  They are the engine's,
    taken here as an interface. *)
Class JsNumber : Type := {
  float : Type;
  (** [parseFloat(s)] *)
  parseFloat : string -> float;
  (** a numeric literal, by its source text *)
  float_lit : string -> float;
  fmul : float -> float -> float;
  fadd : float -> float -> float;
  (** [x.toString()] *)
  float_toString : float -> string }.

(** ** Configuration, requests, promises *)

(** [GeckoTerminalOptions] of [types.ts]; [None] is an omitted field. *)
Record GeckoTerminalOptions : Type := {
  opt_baseUrl : option string;
  opt_apiVersion : option string;
  opt_headers : option (gmap string string) }.

(** The configuration given to [axios.create]. *)
Record AxiosInstance : Type := {
  baseURL : string;
  instance_headers : gmap string string }.

(** The fields of the class. *)
Record GeckoTerminal : Type := {
  baseUrl : string;
  apiVersion : string;
  headers : gmap string string;
  axios : AxiosInstance }.

(** One outbound GET, as [this.axios.get(endpoint, { params })] hands it
    to the transport: the instance's base URL and headers, the endpoint
    path, and the [params] object with its [undefined] members still in. *)
Record request : Type := {
  req_baseURL : string;
  req_endpoint : string;
  req_params : list (string * value);
  req_headers : gmap string string }.

(** Modelled from the spec: axios joins base URL and path; its code is not
    part of the sources.  The spec (4.1) gives the target of a call as
    [{baseUrl}/{apiVersion}{path}]. *)
Definition request_url (r : request) : string :=
  req_baseURL r ++ req_endpoint r.

(** Modelled from the spec: axios serialises [params]; its code is not
    part of the sources.  The spec (3, 4.1) has the query parameters
    attached "after dropping undefined entries". *)
Definition serialized_params (r : request) : list (string * value) :=
  List.filter (fun kv => negb (Js.is_undefined kv.2)) (req_params r).

(** What came of one request: a 2xx response with its parsed body, or the
    value axios rejects with, as the response interceptor receives it. *)
Inductive transport_result : Type :=
| Response (data : value)
| Failure (error : value).

Inductive outcome : Type :=
| Fulfilled (v : value)
| Rejected (e : value).

(** A promise: its outcome and the moment it settles.  A rejection raised
    before any request settles at 0, the reply to a request later. *)
Record promise : Type := {
  settled : nat;
  state : outcome }.

(** The world outside the client: the reply to the [k]-th request of a
    run and its arrival time, the clock ([Math.floor(Date.now() / 1000)])
    and the successive results of [Math.random()]. *)
Record Env `{JsNumber} : Type := {
  transport : nat -> request -> transport_result;
  arrival : nat -> nat;
  now_seconds : Z;
  random : nat -> float }.

(** [types.ts]: the option bags, [None] for an omitted field. *)
Record PaginationParams : Type := {
  page : option Z;
  page_size : option Z }.

Record IncludeParams : Type := {
  include : option (list string) }.

Record OhlcvParams : Type := {
  timeframe : option string;
  aggregate : option Z;
  before_timestamp : option Z;
  limit : option Z;
  currency : option string;
  token : option string }.

Record TradesParams : Type := {
  trade_volume_in_usd_greater_than : option Z;
  cursor : option string }.

(** ** Promise combinators *)

(** A rejection raised by an [async] method before it awaits anything. *)
Definition rejected_now (e : value) : promise :=
  {| settled := 0; state := Rejected e |}.

(** [const v = await p; return k(v)] inside an [async] method. *)
Definition and_then (p : promise) (k : value -> throws value) : promise :=
  match state p with
  | Fulfilled v =>
      {| settled := settled p;
         state := match k v with Ok r => Fulfilled r | Throw e => Rejected e end |}
  | Rejected _ => p
  end.

(** The rejection [Promise.all] observes first: the earliest to settle,
    the lower index on a tie. *)
Fixpoint first_rejection (ps : list promise) : option (nat * value) :=
  match ps with
  | [] => None
  | p :: rest =>
      match state p, first_rejection rest with
      | Rejected e, Some (t, e') =>
          if (settled p <=? t)%nat then Some (settled p, e) else Some (t, e')
      | Rejected e, None => Some (settled p, e)
      | Fulfilled _, r => r
      end
  end.

Fixpoint fulfilled_values (ps : list promise) : list value :=
  match ps with
  | [] => []
  | p :: rest =>
      match state p with
      | Fulfilled v => v :: fulfilled_values rest
      | Rejected _ => fulfilled_values rest
      end
  end.

(** [Promise.all(ps)] *)
Definition Promise_all (ps : list promise) : promise :=
  match first_rejection ps with
  | Some (t, e) => {| settled := t; state := Rejected e |}
  | None =>
      {| settled := foldr Nat.max 0%nat (settled <$> ps);
         state := Fulfilled (VArr (fulfilled_values ps)) |}
  end.

(** [items.map(x => f(x))] for an [async] method [f]: the calls start in
    order, each on the log the previous ones left. *)
Fixpoint map_calls (f : value -> list request -> promise * list request)
    (items : list value) (log : list request)
  : list promise * list request :=
  match items with
  | [] => ([], log)
  | x :: rest =>
      let '(p, log1) := f x log in
      let '(ps, log2) := map_calls f rest log1 in
      (p :: ps, log2)
  end.

(** ** The client *)

Section Client.
Context `{JsNumber}.

(** [version] of [package.json], which is not part of the sources. *)
Variable version : string.

(** Base URL for the GeckoTerminal API *)
Definition GECKOTERMINAL_BASE_URL : string := "https://api.geckoterminal.com/api".

(** [o || d] for an optional string: the empty string is falsy. *)
Definition str_or (o : option string) (d : string) : string :=
  match o with
  | Some s => if String.eqb s "" then d else s
  | None => d
  end.

Definition default_headers : gmap string string :=
  <["User-Agent" := "GeckoTerminal-Node/" ++ version]>
    (<["Accept" := "application/json"]> ∅).

(** The constructor.  The object spread [...options.headers] writes the
    caller's headers over the two defaults. *)
Definition constructor (options : GeckoTerminalOptions) : GeckoTerminal :=
  let baseUrl := str_or (opt_baseUrl options) GECKOTERMINAL_BASE_URL in
  let apiVersion := str_or (opt_apiVersion options) "v2" in
  let headers := from_option id ∅ (opt_headers options) ∪ default_headers in
  {| baseUrl := baseUrl;
     apiVersion := apiVersion;
     headers := headers;
     axios := {| baseURL := baseUrl ++ "/" ++ apiVersion;
                 instance_headers := headers |} |}.

(** [_handleRequestError]: the response interceptor's rejection handler.
    It returns a rejected promise, or throws where a property is read off
    [undefined] or [null] or [map] is called on what is no array. *)
Definition _handleRequestError (error : value) : throws outcome :=
  response ← JsProp.get error "response";
  if Js.truthy response then
    status ← JsProp.get response "status";
    data ← JsProp.get response "data";
    let message := "GeckoTerminal API Error: " ++ Js.to_string status in
    message ←
      (if Js.truthy data then
         errors ← JsProp.get data "errors";
         if Js.truthy errors then
           details ← JsProp.map errors (fun err =>
             detail ← JsProp.get err "detail";
             if Js.truthy detail then Ok detail else JsProp.get err "title");
           Ok (message ++ " - " ++ Js.join ", " (Js.items details))
         else Ok message
       else Ok message);
    let apiError := Js.new_Error message in
    let apiError := Js.set_field "status" status apiError in
    let apiError := Js.set_field "data" data apiError in
    Ok (Rejected apiError)
  else
    request ← JsProp.get error "request";
    if Js.truthy request then
      Ok (Rejected (Js.new_Error "No response received from GeckoTerminal API"))
    else
      Ok (Rejected error).

(** The interceptor pair installed by the constructor: a response passes
    through, a failure goes to [_handleRequestError]; what the handler
    throws rejects the request's promise as well. *)
Definition intercept (t : transport_result) : outcome :=
  match t with
  | Response data => Fulfilled data
  | Failure error =>
      match _handleRequestError error with
      | Ok o => o
      | Throw e => Rejected e
      end
  end.

(** The request of [this.axios.get(endpoint, { params })]. *)
Definition axios_get (c : GeckoTerminal) (endpoint : string)
    (params : list (string * value)) : request :=
  {| req_baseURL := baseURL (axios c);
     req_endpoint := endpoint;
     req_params := params;
     req_headers := instance_headers (axios c) |}.

(** [_get]: one GET through the axios instance; [response.data] on
    success, the interceptor's rejection rethrown otherwise. *)
Definition _get (c : GeckoTerminal) (env : Env) (endpoint : string)
    (params : list (string * value)) (log : list request)
  : promise * list request :=
  let req := axios_get c endpoint params in
  let k := length log in
  ({| settled := S (arrival env k); state := intercept (transport env k req) |},
   (log ++ [req])%list).

(** [_buildIncludeParams] *)
Definition _buildIncludeParams (include : value) : value :=
  if negb (Js.truthy include) || negb (Js.isArray include)
     || (length (Js.items include) =? 0)%nat
  then VUndef
  else VStr (Js.join "," (Js.items include)).

(** [const { include = [] } = options] *)
Definition include_of (options : IncludeParams) : value :=
  Js.with_default (VArr []) (from_option (fun l => VArr (VStr <$> l)) VUndef (include options)).

(** [const { page = 1 } = options], [const { page_size = 100 } = options] *)
Definition page_of (options : PaginationParams) : value :=
  Js.with_default (VNum 1) (Js.opt_num (page options)).

Definition page_size_of (options : PaginationParams) : value :=
  Js.with_default (VNum 100) (Js.opt_num (page_size options)).

Definition getNetworks (c : GeckoTerminal) (env : Env) (options : PaginationParams)
    (log : list request) : promise * list request :=
  let params := [("page", page_of options); ("page_size", page_size_of options)] in
  _get c env "/networks" params log.

Definition getDexes (c : GeckoTerminal) (env : Env) (network : value)
    (options : PaginationParams) (log : list request) : promise * list request :=
  if negb (Js.truthy network) then
    (rejected_now (Js.new_Error "Network parameter is required"), log)
  else
    let params := [("page", page_of options); ("page_size", page_size_of options)] in
    _get c env ("/networks/" ++ Js.to_string network ++ "/dexes") params log.

Definition getPool (c : GeckoTerminal) (env : Env) (network poolAddress : value)
    (options : IncludeParams) (log : list request) : promise * list request :=
  if negb (Js.truthy network) then
    (rejected_now (Js.new_Error "Network parameter is required"), log)
  else if negb (Js.truthy poolAddress) then
    (rejected_now (Js.new_Error "Pool address parameter is required"), log)
  else
    let params := [("include", _buildIncludeParams (include_of options))] in
    _get c env
      ("/networks/" ++ Js.to_string network ++ "/pools/" ++ Js.to_string poolAddress)
      params log.

(** [results[0]?.included || []] *)
Definition first_included (results : list value) : throws value :=
  match results with
  | [] | VUndef :: _ | VNull :: _ => Ok (VArr [])
  | r :: _ => included ← JsProp.get r "included"; Ok (Js.or_else included (VArr []))
  end.

(** The callback of [poolAddresses.map] in [getPools]:
    [address => this.getPool(network, address, { include })]. *)
Definition pool_call (c : GeckoTerminal) (env : Env) (network : value)
    (options : IncludeParams) (address : value) (log : list request)
  : promise * list request :=
  getPool c env network address
    {| include := Some (from_option id [] (include options)) |} log.

Definition getPools (c : GeckoTerminal) (env : Env) (network poolAddresses : value)
    (options : IncludeParams) (log : list request) : promise * list request :=
  if negb (Js.truthy network) then
    (rejected_now (Js.new_Error "Network parameter is required"), log)
  else if negb (Js.truthy poolAddresses) || negb (Js.isArray poolAddresses)
          || (length (Js.items poolAddresses) =? 0)%nat then
    (rejected_now
       (Js.new_Error "Pool addresses parameter is required and must be an array"),
     log)
  else
    let '(promises, log') :=
      map_calls (pool_call c env network options) (Js.items poolAddresses) log in
    (and_then (Promise_all promises) (fun results =>
       data ← JsProp.map results (fun result => JsProp.get result "data");
       included ← first_included (Js.items results);
       Ok (VObj [("data", data); ("included", included)])),
     log').

(** The parameters shared by the pool listings: [page], [page_size] and
    [include], each with its default. *)
Definition list_params (inc : IncludeParams) (pg : PaginationParams)
  : list (string * value) :=
  [("page", page_of pg); ("page_size", page_size_of pg);
   ("include", _buildIncludeParams (include_of inc))].

Definition getTopPools (c : GeckoTerminal) (env : Env) (network : value)
    (dex : option string) (inc : IncludeParams) (pg : PaginationParams)
    (log : list request) : promise * list request :=
  if negb (Js.truthy network) then
    (rejected_now (Js.new_Error "Network parameter is required"), log)
  else
    let params := list_params inc pg in
    let endpoint :=
      if Js.truthy (Js.opt_str dex)
      then "/networks/" ++ Js.to_string network ++ "/dexes/"
           ++ Js.to_string (Js.opt_str dex) ++ "/pools"
      else "/networks/" ++ Js.to_string network ++ "/pools" in
    _get c env endpoint params log.

Definition getNewPools (c : GeckoTerminal) (env : Env) (network : option string)
    (inc : IncludeParams) (pg : PaginationParams)
    (log : list request) : promise * list request :=
  let params := list_params inc pg in
  let endpoint :=
    if Js.truthy (Js.opt_str network)
    then "/networks/" ++ Js.to_string (Js.opt_str network) ++ "/new_pools"
    else "/networks/new_pools" in
  _get c env endpoint params log.

Definition getTrendingPools (c : GeckoTerminal) (env : Env)
    (inc : IncludeParams) (pg : PaginationParams)
    (log : list request) : promise * list request :=
  _get c env "/networks/trending_pools" (list_params inc pg) log.

Definition getTrendingPoolsByNetwork (c : GeckoTerminal) (env : Env)
    (network : value) (inc : IncludeParams) (pg : PaginationParams)
    (log : list request) : promise * list request :=
  if negb (Js.truthy network) then
    (rejected_now (Js.new_Error "Network parameter is required"), log)
  else
    _get c env ("/networks/" ++ Js.to_string network ++ "/trending_pools")
      (list_params inc pg) log.

Definition getPoolInfo (c : GeckoTerminal) (env : Env)
    (network poolAddress : value) (log : list request) : promise * list request :=
  if negb (Js.truthy network) then
    (rejected_now (Js.new_Error "Network parameter is required"), log)
  else if negb (Js.truthy poolAddress) then
    (rejected_now (Js.new_Error "Pool address parameter is required"), log)
  else
    let '(response, log') :=
      _get c env
        ("/networks/" ++ Js.to_string network ++ "/pools/"
         ++ Js.to_string poolAddress ++ "/info") [] log in
    (and_then response (fun response =>
       tokens ← JsProp.get response "data";
       Ok (VObj [("data", VObj [
             ("id", VStr (Js.to_string network ++ "_"
                          ++ Js.to_string poolAddress ++ "_info"));
             ("type", VStr "pool_info");
             ("attributes", VObj [("tokens", tokens)])])])),
     log').

Definition getToken (c : GeckoTerminal) (env : Env) (network tokenAddress : value)
    (options : IncludeParams) (log : list request) : promise * list request :=
  if negb (Js.truthy network) then
    (rejected_now (Js.new_Error "Network parameter is required"), log)
  else if negb (Js.truthy tokenAddress) then
    (rejected_now (Js.new_Error "Token address parameter is required"), log)
  else
    let params := [("include", _buildIncludeParams (include_of options))] in
    _get c env
      ("/networks/" ++ Js.to_string network ++ "/tokens/" ++ Js.to_string tokenAddress)
      params log.

(** The callback of [results.map] in [getPrices]. *)
Definition token_price (result : value) : throws value :=
  token ← JsProp.get result "data";
  id ← JsProp.get token "id";
  attributes ← JsProp.get token "attributes";
  address ← JsProp.get attributes "address";
  price_usd ← JsProp.get attributes "price_usd";
  change ← JsProp.get attributes "price_24h_change_percentage";
  Ok (VObj [("id", id);
            ("type", VStr "token_price");
            ("attributes", VObj [
               ("address", address);
               ("price_usd", Js.or_else price_usd (VStr "0"));
               ("price_24h_change_percentage", Js.or_else change (VStr "0"))])]).

(** The callback of [tokenAddresses.map] in [getPrices]:
    [address => this.getToken(network, address)]. *)
Definition token_call (c : GeckoTerminal) (env : Env) (network : value)
    (address : value) (log : list request) : promise * list request :=
  getToken c env network address {| include := None |} log.

Definition getPrices (c : GeckoTerminal) (env : Env) (network tokenAddresses : value)
    (log : list request) : promise * list request :=
  if negb (Js.truthy network) then
    (rejected_now (Js.new_Error "Network parameter is required"), log)
  else if negb (Js.truthy tokenAddresses) || negb (Js.isArray tokenAddresses)
          || (length (Js.items tokenAddresses) =? 0)%nat then
    (rejected_now
       (Js.new_Error "Token addresses parameter is required and must be an array"),
     log)
  else if (30 <? length (Js.items tokenAddresses))%nat then
    (rejected_now (Js.new_Error "Maximum of 30 token addresses allowed"), log)
  else
    let '(promises, log') :=
      map_calls (token_call c env network) (Js.items tokenAddresses) log in
    (and_then (Promise_all promises) (fun results =>
       data ← JsProp.map results token_price;
       Ok (VObj [("data", data)])),
     log').

Definition validTimeframes : list string := ["minute"; "hour"; "day"; "week"; "month"].

Definition validCurrencies : list string := ["usd"; "token"].

(** [validX.includes(x)] *)
Definition includes (l : list string) (x : string) : bool :=
  existsb (String.eqb x) l.

Definition timeframeInSeconds : list (string * Z) :=
  [("minute", 60); ("hour", 3600); ("day", 86400); ("week", 604800);
   ("month", 2592000)].

(** [timeframeInSeconds[timeframe]]; the lookup follows the validation of
    [timeframe], so it finds an entry. *)
Definition seconds_of (tf : string) : Z :=
  from_option id 0 (snd <$> List.find (fun kv => String.eqb tf kv.1) timeframeInSeconds).

(** The loop [for (let i = 0; i < (limit || 100); i++)] with [count]
    iterations left: each one reads the pool's price and pushes a candle
    drawn from three calls of [Math.random()]. *)
Fixpoint mock_candles (env : Env) (pool : value) (interval : Z)
    (count : nat) (i : nat) : throws (list value) :=
  match count with
  | O => Ok []
  | S count' =>
      let timestamp := now_seconds env - Z.of_nat i * interval in
      data ← JsProp.get pool "data";
      attributes ← JsProp.get data "attributes";
      base_usd ← JsProp.get attributes "base_token_price_usd";
      let basePrice := parseFloat (Js.to_string (Js.or_else base_usd (VStr "0"))) in
      let randomFactor :=
        fadd (float_lit "0.98") (fmul (random env (3 * i)%nat) (float_lit "0.04")) in
      let price := fmul basePrice randomFactor in
      let candle := VObj [
        ("timestamp", VNum timestamp);
        ("open", VStr (float_toString price));
        ("high", VStr (float_toString (fmul price (float_lit "1.01"))));
        ("low", VStr (float_toString (fmul price (float_lit "0.99"))));
        ("close", VStr (float_toString
           (fmul price (fadd (float_lit "0.995")
                          (fmul (random env (3 * i + 1)%nat) (float_lit "0.01"))))));
        ("volume", VStr (float_toString
           (fmul (random env (3 * i + 2)%nat) (float_lit "1000000"))))] in
      rest ← mock_candles env pool interval count' (S i);
      Ok (candle :: rest)
  end.

(** [x || d] on a number: 0 is falsy. *)
Definition num_or (x d : Z) : Z := if (x =? 0)%Z then d else x.

Definition getPoolOhlcv (c : GeckoTerminal) (env : Env)
    (network poolAddress : value) (options : OhlcvParams)
    (log : list request) : promise * list request :=
  if negb (Js.truthy network) then
    (rejected_now (Js.new_Error "Network parameter is required"), log)
  else if negb (Js.truthy poolAddress) then
    (rejected_now (Js.new_Error "Pool address parameter is required"), log)
  else
    let tf := from_option id "day" (timeframe options) in
    let agg := from_option id 1 (aggregate options) in
    let lim := from_option id 100 (limit options) in
    let cur := from_option id "usd" (currency options) in
    if negb (includes validTimeframes tf) then
      (rejected_now (Js.new_Error
         ("Invalid timeframe: " ++ tf ++ ". Must be one of: "
          ++ String.concat ", " validTimeframes)), log)
    else if negb (includes validCurrencies cur) then
      (rejected_now (Js.new_Error
         ("Invalid currency: " ++ cur ++ ". Must be one of: "
          ++ String.concat ", " validCurrencies)), log)
    else if (1000 <? lim)%Z then
      (rejected_now (Js.new_Error "Maximum limit is 1000"), log)
    else
      let '(pool, log') := getPool c env network poolAddress {| include := None |} log in
      (and_then pool (fun pool =>
         let interval := seconds_of tf * num_or agg 1 in
         mockData ← mock_candles env pool interval (Z.to_nat (num_or lim 100)) 0;
         Ok (VObj [("data", VArr mockData)])),
       log').

Definition getTrades (c : GeckoTerminal) (env : Env)
    (network poolAddress : value) (options : TradesParams)
    (log : list request) : promise * list request :=
  if negb (Js.truthy network) then
    (rejected_now (Js.new_Error "Network parameter is required"), log)
  else if negb (Js.truthy poolAddress) then
    (rejected_now (Js.new_Error "Pool address parameter is required"), log)
  else
    let params := [
      ("trade_volume_in_usd_greater_than",
       Js.opt_num (trade_volume_in_usd_greater_than options));
      ("cursor", Js.opt_str (cursor options))] in
    _get c env
      ("/networks/" ++ Js.to_string network ++ "/pools/"
       ++ Js.to_string poolAddress ++ "/trades")
      params log.

Definition searchPools (c : GeckoTerminal) (env : Env) (query : value)
    (network : option string) (inc : IncludeParams) (pg : PaginationParams)
    (log : list request) : promise * list request :=
  if negb (Js.truthy query) then
    (rejected_now (Js.new_Error "Search query parameter is required"), log)
  else
    let params := ("query", query) :: list_params inc pg in
    let endpoint :=
      if Js.truthy (Js.opt_str network)
      then "/networks/" ++ Js.to_string (Js.opt_str network) ++ "/search/pools"
      else "/search/pools" in
    _get c env endpoint params log.

(** The build under [dist/] ([geckoterminal.js]) is of another revision;
    its [getPoolOhlcv] validates alike and then sends the six parameters
    to the [/ohlcv] endpoint. *)
Definition dist_getPoolOhlcv (c : GeckoTerminal) (env : Env)
    (network poolAddress : value) (options : OhlcvParams)
    (log : list request) : promise * list request :=
  if negb (Js.truthy network) then
    (rejected_now (Js.new_Error "Network parameter is required"), log)
  else if negb (Js.truthy poolAddress) then
    (rejected_now (Js.new_Error "Pool address parameter is required"), log)
  else
    let tf := from_option id "day" (timeframe options) in
    let agg := from_option id 1 (aggregate options) in
    let lim := from_option id 100 (limit options) in
    let cur := from_option id "usd" (currency options) in
    let tok := from_option id "base" (token options) in
    if negb (includes validTimeframes tf) then
      (rejected_now (Js.new_Error
         ("Invalid timeframe: " ++ tf ++ ". Must be one of: "
          ++ String.concat ", " validTimeframes)), log)
    else if negb (includes validCurrencies cur) then
      (rejected_now (Js.new_Error
         ("Invalid currency: " ++ cur ++ ". Must be one of: "
          ++ String.concat ", " validCurrencies)), log)
    else if (1000 <? lim)%Z then
      (rejected_now (Js.new_Error "Maximum limit is 1000"), log)
    else
      let params := [
        ("timeframe", VStr tf); ("aggregate", VNum agg);
        ("before_timestamp", Js.opt_num (before_timestamp options));
        ("limit", VNum lim); ("currency", VStr cur); ("token", VStr tok)] in
      _get c env
        ("/networks/" ++ Js.to_string network ++ "/pools/"
         ++ Js.to_string poolAddress ++ "/ohlcv")
        params log.

(** ** Every endpoint method, as one type of calls *)

Inductive call : Type :=
| GetNetworks (options : PaginationParams)
| GetDexes (network : value) (options : PaginationParams)
| GetPool (network poolAddress : value) (options : IncludeParams)
| GetPools (network poolAddresses : value) (options : IncludeParams)
| GetTopPools (network : value) (dex : option string)
    (inc : IncludeParams) (pg : PaginationParams)
| GetNewPools (network : option string) (inc : IncludeParams) (pg : PaginationParams)
| GetTrendingPools (inc : IncludeParams) (pg : PaginationParams)
| GetTrendingPoolsByNetwork (network : value)
    (inc : IncludeParams) (pg : PaginationParams)
| GetPoolInfo (network poolAddress : value)
| GetToken (network tokenAddress : value) (options : IncludeParams)
| GetPrices (network tokenAddresses : value)
| GetPoolOhlcv (network poolAddress : value) (options : OhlcvParams)
| GetTrades (network poolAddress : value) (options : TradesParams)
| SearchPools (query : value) (network : option string)
    (inc : IncludeParams) (pg : PaginationParams).

Definition run (c : GeckoTerminal) (env : Env) (m : call) (log : list request)
  : promise * list request :=
  match m with
  | GetNetworks o => getNetworks c env o log
  | GetDexes n o => getDexes c env n o log
  | GetPool n a o => getPool c env n a o log
  | GetPools n l o => getPools c env n l o log
  | GetTopPools n d i p => getTopPools c env n d i p log
  | GetNewPools n i p => getNewPools c env n i p log
  | GetTrendingPools i p => getTrendingPools c env i p log
  | GetTrendingPoolsByNetwork n i p => getTrendingPoolsByNetwork c env n i p log
  | GetPoolInfo n a => getPoolInfo c env n a log
  | GetToken n a o => getToken c env n a o log
  | GetPrices n l => getPrices c env n l log
  | GetPoolOhlcv n a o => getPoolOhlcv c env n a o log
  | GetTrades n a o => getTrades c env n a o log
  | SearchPools q n i p => searchPools c env q n i p log
  end.

(** The requests a call issues on a fresh log, and its promise. *)
Definition requests_of (c : GeckoTerminal) (env : Env) (m : call) : list request :=
  (run c env m []).2.

Definition promise_of (c : GeckoTerminal) (env : Env) (m : call) : promise :=
  (run c env m []).1.

End Client.

(** ** A scripted world, for running the client on concrete inputs *)

(** The fractional numbers read symbolically: a number is the expression
    that computes it. *)
Definition symbolic_numbers : JsNumber := {|
  float := string;
  parseFloat s := "parseFloat(" ++ s ++ ")";
  float_lit s := s;
  fmul a b := "(" ++ a ++ " * " ++ b ++ ")";
  fadd a b := "(" ++ a ++ " + " ++ b ++ ")";
  float_toString s := s |}.

(** The failure axios reports when a request got no response. *)
Definition no_response : value :=
  VObj [("message", VStr "Network Error"); ("request", VObj [])].

(** A world that answers the [k]-th request with the [k]-th entry of a
    script (reply and arrival time) and leaves later requests unanswered;
    the clock stands at [clock], the [k]-th random number is [rk]. *)
Definition scripted (script : list (transport_result * nat)) (clock : Z)
  : @Env symbolic_numbers :=
  @Build_Env symbolic_numbers
    (fun k _ => from_option fst (Failure no_response) (script !! k))
    (fun k => from_option snd 0%nat (script !! k))
    clock
    (fun k => "r" ++ pretty k).

(** The client of [new GeckoTerminal()] for package version 1.0.0. *)
Definition default_client : GeckoTerminal :=
  constructor "1.0.0"
    {| opt_baseUrl := None; opt_apiVersion := None; opt_headers := None |}.

(** A pool document as the API returns it, cut down to what is read. *)
Definition sample_pool : value :=
  VObj [("data", VObj [("id", VStr "eth_0xabc");
                       ("type", VStr "pool");
                       ("attributes", VObj [("address", VStr "0xabc");
                                            ("base_token_price_usd", VStr "1.5")])]);
        ("included", VArr [VObj [("id", VStr "eth_0xweth"); ("type", VStr "token")]])].

Definition no_paging : PaginationParams := {| page := None; page_size := None |}.

Definition no_include : IncludeParams := {| include := None |}.

Definition no_ohlcv_options : OhlcvParams :=
  {| timeframe := None; aggregate := None; before_timestamp := None;
     limit := None; currency := None; token := None |}.

(** ** Classes of methods and of failures *)

(** The paginated endpoint methods, with the paging options of a call. *)
Definition paginated (m : call) : option PaginationParams :=
  match m with
  | GetNetworks o | GetDexes _ o => Some o
  | GetTopPools _ _ _ p | GetNewPools _ _ p | GetTrendingPools _ p
  | GetTrendingPoolsByNetwork _ _ p | SearchPools _ _ _ p => Some p
  | _ => None
  end.

(** The methods that take an include list, with the list of a call
    ([None] when the caller omitted it). *)
Definition include_capable (m : call) : option (option (list string)) :=
  match m with
  | GetPool _ _ o | GetPools _ _ o | GetToken _ _ o => Some (include o)
  | GetTopPools _ _ i _ | GetNewPools _ i _ | GetTrendingPools i _
  | GetTrendingPoolsByNetwork _ i _ | SearchPools _ _ i _ => Some (include i)
  | _ => None
  end.

(** What a call may send: the endpoint path and the [params] object of
    any request it issues. *)
Definition sends (m : call) (endpoint : string) (params : list (string * value))
  : Prop :=
  match m with
  | GetNetworks o =>
      endpoint = "/networks"
      /\ params = [("page", page_of o); ("page_size", page_size_of o)]
  | GetDexes n o =>
      endpoint = "/networks/" ++ Js.to_string n ++ "/dexes"
      /\ params = [("page", page_of o); ("page_size", page_size_of o)]
  | GetPool n a o =>
      endpoint = "/networks/" ++ Js.to_string n ++ "/pools/" ++ Js.to_string a
      /\ params = [("include", _buildIncludeParams (include_of o))]
  | GetPools n l o =>
      (exists a, a ∈ Js.items l
         /\ endpoint = "/networks/" ++ Js.to_string n ++ "/pools/" ++ Js.to_string a)
      /\ params = [("include", _buildIncludeParams (include_of
                      {| include := Some (from_option id [] (include o)) |}))]
  | GetTopPools n d i p =>
      (endpoint = "/networks/" ++ Js.to_string n ++ "/dexes/"
                  ++ Js.to_string (Js.opt_str d) ++ "/pools"
       \/ endpoint = "/networks/" ++ Js.to_string n ++ "/pools")
      /\ params = list_params i p
  | GetNewPools n i p =>
      (endpoint = "/networks/" ++ Js.to_string (Js.opt_str n) ++ "/new_pools"
       \/ endpoint = "/networks/new_pools")
      /\ params = list_params i p
  | GetTrendingPools i p =>
      endpoint = "/networks/trending_pools" /\ params = list_params i p
  | GetTrendingPoolsByNetwork n i p =>
      endpoint = "/networks/" ++ Js.to_string n ++ "/trending_pools"
      /\ params = list_params i p
  | GetPoolInfo n a =>
      endpoint = "/networks/" ++ Js.to_string n ++ "/pools/"
                 ++ Js.to_string a ++ "/info"
      /\ params = []
  | GetToken n a o =>
      endpoint = "/networks/" ++ Js.to_string n ++ "/tokens/" ++ Js.to_string a
      /\ params = [("include", _buildIncludeParams (include_of o))]
  | GetPrices n l =>
      (exists a, a ∈ Js.items l
         /\ endpoint = "/networks/" ++ Js.to_string n ++ "/tokens/" ++ Js.to_string a)
      /\ params = [("include", _buildIncludeParams (include_of {| include := None |}))]
  | GetPoolOhlcv n a o =>
      endpoint = "/networks/" ++ Js.to_string n ++ "/pools/" ++ Js.to_string a
      /\ params = [("include", _buildIncludeParams (include_of {| include := None |}))]
  | GetTrades n a o =>
      endpoint = "/networks/" ++ Js.to_string n ++ "/pools/"
                 ++ Js.to_string a ++ "/trades"
      /\ params = [("trade_volume_in_usd_greater_than",
                    Js.opt_num (trade_volume_in_usd_greater_than o));
                   ("cursor", Js.opt_str (cursor o))]
  | SearchPools q n i p =>
      (endpoint = "/networks/" ++ Js.to_string (Js.opt_str n) ++ "/search/pools"
       \/ endpoint = "/search/pools")
      /\ params = ("query", q) :: list_params i p
  end.

(** A request as the client [c] configured it, sent for the call [m]. *)
Definition sent_by (c : GeckoTerminal) (m : call) (r : request) : Prop :=
  req_baseURL r = baseURL (axios c)
  /\ req_headers r = instance_headers (axios c)
  /\ sends m (req_endpoint r) (req_params r).

(** The positional arguments a method refuses when they are falsy. *)
Definition required (m : call) : list value :=
  match m with
  | GetNetworks _ | GetNewPools _ _ _ | GetTrendingPools _ _ => []
  | GetDexes n _ | GetTopPools n _ _ _ | GetTrendingPoolsByNetwork n _ _ => [n]
  | GetPool n a _ | GetPoolInfo n a | GetToken n a _ | GetPoolOhlcv n a _
  | GetTrades n a _ => [n; a]
  | GetPools n l _ | GetPrices n l => [n; l]
  | SearchPools q _ _ _ => [q]
  end.

(** The kinds of transport failure the normaliser tells apart, by what the
    failure carries: a response, else a request, else neither. *)
Inductive failure_kind : Type :=
| ServerResponded
| NoResponse
| SetupFailed.

Definition kind_of (fields : list (string * value)) : failure_kind :=
  if Js.truthy (Js.field "response" fields) then ServerResponded
  else if Js.truthy (Js.field "request" fields) then NoResponse
  else SetupFailed.

(** A server failure as axios reports it: the response with its status
    and body. *)
Definition server_failure (status : value) (body : value) : value :=
  VObj [("message", VStr "Request failed");
        ("request", VObj []);
        ("response", VObj [("status", status); ("data", body)])].

(** [err.detail || err.title] for an error object given by its fields. *)
Definition detail_or_title (fields : list (string * value)) : value :=
  Js.or_else (Js.field "detail" fields) (Js.field "title" fields).

(** ** The other methods of the build under [dist/]

    [dist/src/geckoterminal.js] has the constructor, [_get],
    [_handleRequestError], [_buildIncludeParams] and most methods of the
    source; these four differ. *)

Section DistBuild.
Context `{JsNumber}.

(** [getPools] of the build: one request to [/pools/multi] with the
    addresses joined. *)
Definition dist_getPools (c : GeckoTerminal) (env : Env)
    (network poolAddresses : value) (options : IncludeParams)
    (log : list request) : promise * list request :=
  if negb (Js.truthy network) then
    (rejected_now (Js.new_Error "Network parameter is required"), log)
  else if negb (Js.truthy poolAddresses) || negb (Js.isArray poolAddresses)
          || (length (Js.items poolAddresses) =? 0)%nat then
    (rejected_now
       (Js.new_Error "Pool addresses parameter is required and must be an array"),
     log)
  else
    let params := [
      ("pool_addresses", VStr (Js.join "," (Js.items poolAddresses)));
      ("include", _buildIncludeParams (include_of options))] in
    _get c env ("/networks/" ++ Js.to_string network ++ "/pools/multi") params log.

(** [getPrices] of the build: one request to [/tokens/prices]. *)
Definition dist_getPrices (c : GeckoTerminal) (env : Env)
    (network tokenAddresses : value) (log : list request)
  : promise * list request :=
  if negb (Js.truthy network) then
    (rejected_now (Js.new_Error "Network parameter is required"), log)
  else if negb (Js.truthy tokenAddresses) || negb (Js.isArray tokenAddresses)
          || (length (Js.items tokenAddresses) =? 0)%nat then
    (rejected_now
       (Js.new_Error "Token addresses parameter is required and must be an array"),
     log)
  else if (30 <? length (Js.items tokenAddresses))%nat then
    (rejected_now (Js.new_Error "Maximum of 30 token addresses allowed"), log)
  else
    let params := [
      ("token_addresses", VStr (Js.join "," (Js.items tokenAddresses)))] in
    _get c env ("/networks/" ++ Js.to_string network ++ "/tokens/prices") params log.

(** [getNewPools] of the build: [/pools/new] without a network. *)
Definition dist_getNewPools (c : GeckoTerminal) (env : Env)
    (network : option string) (inc : IncludeParams) (pg : PaginationParams)
    (log : list request) : promise * list request :=
  let params := list_params inc pg in
  let endpoint :=
    if Js.truthy (Js.opt_str network)
    then "/networks/" ++ Js.to_string (Js.opt_str network) ++ "/new_pools"
    else "/pools/new" in
  _get c env endpoint params log.

(** [getPoolInfo] of the build: the response as it is. *)
Definition dist_getPoolInfo (c : GeckoTerminal) (env : Env)
    (network poolAddress : value) (log : list request) : promise * list request :=
  if negb (Js.truthy network) then
    (rejected_now (Js.new_Error "Network parameter is required"), log)
  else if negb (Js.truthy poolAddress) then
    (rejected_now (Js.new_Error "Pool address parameter is required"), log)
  else
    _get c env
      ("/networks/" ++ Js.to_string network ++ "/pools/"
       ++ Js.to_string poolAddress ++ "/info") [] log.

End DistBuild.

(** ** More classes of calls *)

(** The methods that return what [_get] returns. *)
Definition pass_through (m : call) : bool :=
  match m with
  | GetPools _ _ _ | GetPrices _ _ | GetPoolInfo _ _ | GetPoolOhlcv _ _ _ => false
  | _ => true
  end.

(** The most requests a call can send: one per address for the two
    fan-out methods, one for the others. *)
Definition max_requests (m : call) : nat :=
  match m with
  | GetPools _ l _ | GetPrices _ l => length (Js.items l)
  | _ => 1
  end.

(** The messages of the required-argument checks. *)
Definition required_messages : list string :=
  ["Network parameter is required";
   "Pool address parameter is required";
   "Token address parameter is required";
   "Search query parameter is required";
   "Pool addresses parameter is required and must be an array";
   "Token addresses parameter is required and must be an array"].

(** [pool.data.attributes.base_token_price_usd], the read of every
    iteration of the mock loop. *)
Definition base_price_of (pool : value) : throws value :=
  data ← JsProp.get pool "data";
  attributes ← JsProp.get data "attributes";
  JsProp.get attributes "base_token_price_usd".

(** ** Proof automation *)

(** Reads of literal objects and binds of returned values compute. *)
Ltac js_simpl :=
  repeat first
    [ progress cbn [JsProp.get Js.field String.eqb Ascii.eqb Bool.eqb Js.truthy]
    | match goal with
      | |- context [Ok ?a ≫= ?f] => change (Ok a ≫= f) with (f a); cbv beta
      end ].

(** Case analysis on the guards of a method. *)
Ltac preflight :=
  repeat match goal with
  | |- context [if ?b then _ else _] => destruct b eqn:?
  end.

Ltac nothing_sent := exists []; split; [by rewrite app_nil_r | constructor].

Ltac one_sent :=
  eexists [_]; split; [reflexivity|];
  constructor; [|constructor]; repeat split; auto.

(** A rejection before any request, with one of the listed messages. *)
Ltac reject_now :=
  eexists; split; [reflexivity|]; apply list_elem_of_In; simpl; tauto.

(** No request, or one request, within a bound on their number. *)
Ltac none_sent := exists []; split; [by rewrite app_nil_r | simpl; lia].

Ltac single_sent := eexists [_]; split; [reflexivity | simpl; lia].

(** * Properties *)

(** ** Values and exceptions *)

Lemma bind_Ok {A B} (a : A) (f : A -> throws B) : (Ok a ≫= f) = f a.
Proof. reflexivity. Qed.

Lemma get_object fs k : JsProp.get (VObj fs) k = Ok (Js.field k fs).
Proof. reflexivity. Qed.

Lemma get_truthy v k : Js.truthy v = true -> exists x, JsProp.get v k = Ok x.
Proof. destruct v; simpl; intros; try discriminate; eauto. Qed.

Lemma join_strings sep (l : list string) :
  Js.join sep (VStr <$> l) = String.concat sep l.
Proof.
  unfold Js.join. f_equal. induction l as [|s l IH]; [done|].
  cbn [fmap list_fmap map Js.join_item Js.to_string]. f_equal. exact IH.
Qed.

(** ** The error normaliser *)

Lemma kind_of_cases fields :
  match kind_of fields with
  | ServerResponded => Js.truthy (Js.field "response" fields) = true
  | NoResponse =>
      Js.truthy (Js.field "response" fields) = false
      /\ Js.truthy (Js.field "request" fields) = true
  | SetupFailed =>
      Js.truthy (Js.field "response" fields) = false
      /\ Js.truthy (Js.field "request" fields) = false
  end.
Proof. unfold kind_of. by repeat case_match. Qed.

(** A failure with neither response nor request is handed on as it is. *)
Lemma handle_setup_failure fields :
  kind_of fields = SetupFailed ->
  _handleRequestError (VObj fields) = Ok (Rejected (VObj fields)).
Proof.
  unfold kind_of, _handleRequestError. rewrite !get_object, !bind_Ok.
  destruct (Js.truthy (Js.field "response" fields)); [discriminate|].
  rewrite ?get_object, ?bind_Ok.
  by destruct (Js.truthy (Js.field "request" fields)).
Qed.

Lemma handle_no_response fields :
  kind_of fields = NoResponse ->
  _handleRequestError (VObj fields)
  = Ok (Rejected (Js.new_Error "No response received from GeckoTerminal API")).
Proof.
  unfold kind_of, _handleRequestError. rewrite !get_object, !bind_Ok.
  destruct (Js.truthy (Js.field "response" fields)); [discriminate|].
  rewrite ?get_object, ?bind_Ok.
  by destruct (Js.truthy (Js.field "request" fields)).
Qed.

(** Whatever the normaliser returns for a server response is a rejection
    with an [Error] that carries the response's status and body. *)
Lemma handle_server_response fields o :
  kind_of fields = ServerResponded ->
  _handleRequestError (VObj fields) = Ok o ->
  exists message status data,
    JsProp.get (Js.field "response" fields) "status" = Ok status
    /\ JsProp.get (Js.field "response" fields) "data" = Ok data
    /\ o = Rejected (VObj [("message", VStr message); ("status", status);
                           ("data", data)]).
Proof.
  unfold kind_of, _handleRequestError. rewrite !get_object, !bind_Ok.
  destruct (Js.truthy (Js.field "response" fields)) eqn:Hr; [intros _|by repeat case_match].
  destruct (get_truthy _ "status" Hr) as [status ->].
  destruct (get_truthy _ "data" Hr) as [data ->].
  rewrite !bind_Ok.
  match goal with |- (?m ≫= _) = _ -> _ => destruct m as [message|e] eqn:Hm end;
    [|discriminate].
  rewrite bind_Ok. intros [= <-]. by exists message, status, data.
Qed.

(** C3: the normaliser classifies every failure into exactly one of three
    kinds, by the response or request it carries.  A failure with a
    request and no response becomes the error with the fixed message "No
    response received from GeckoTerminal API", without status and without
    body; a failure with neither is rejected with the original error
    value itself.  No failure is swallowed: the interceptor always
    rejects. *)
Theorem normalizer_three_way (fields : list (string * value)) :
  let error := VObj fields in
  (match kind_of fields with
   | ServerResponded =>
       Js.truthy (Js.field "response" fields) = true
       /\ forall o, _handleRequestError error = Ok o ->
          exists message status data,
            JsProp.get (Js.field "response" fields) "status" = Ok status
            /\ JsProp.get (Js.field "response" fields) "data" = Ok data
            /\ o = Rejected (VObj [("message", VStr message);
                                   ("status", status); ("data", data)])
   | NoResponse =>
       Js.truthy (Js.field "response" fields) = false
       /\ Js.truthy (Js.field "request" fields) = true
       /\ exists e,
           _handleRequestError error = Ok (Rejected e)
           /\ JsProp.get e "message"
              = Ok (VStr "No response received from GeckoTerminal API")
           /\ JsProp.get e "status" = Ok VUndef
           /\ JsProp.get e "data" = Ok VUndef
           /\ JsProp.get e "body" = Ok VUndef
   | SetupFailed =>
       Js.truthy (Js.field "response" fields) = false
       /\ Js.truthy (Js.field "request" fields) = false
       /\ _handleRequestError error = Ok (Rejected error)
   end)
  /\ exists e, intercept (Failure error) = Rejected e.
Proof.
  intros error. subst error. split.
  - pose proof (kind_of_cases fields) as Hc.
    destruct (kind_of fields) eqn:Hk.
    + split; [done|intros o; by apply handle_server_response].
    + destruct Hc as [-> ->]. do 2 (split; [done|]).
      eexists. split; [by apply handle_no_response|done].
    + destruct Hc as [-> ->]. do 2 (split; [done|]). by apply handle_setup_failure.
  - unfold intercept.
    destruct (_handleRequestError (VObj fields)) as [o|e] eqn:Ho; [|by eexists].
    destruct (kind_of fields) eqn:Hk.
    + destruct (handle_server_response _ _ Hk Ho) as (?&?&?&_&_&->). by eexists.
    + rewrite handle_no_response in Ho by done. injection Ho as <-. by eexists.
    + rewrite handle_setup_failure in Ho by done. injection Ho as <-. by eexists.
Qed.

(** The message for a body without an [errors] member that counts. *)
Lemma handle_server_error_plain status body :
  (Js.truthy body = false
   \/ exists errors, JsProp.get body "errors" = Ok errors /\ Js.truthy errors = false) ->
  _handleRequestError (server_failure status body)
  = Ok (Rejected (VObj [
      ("message", VStr ("GeckoTerminal API Error: " ++ Js.to_string status));
      ("status", status); ("data", body)])).
Proof.
  intros Hb. unfold _handleRequestError, server_failure.
  js_simpl.
  destruct Hb as [->|(errors & Hget & Hfalsy)]; [done|].
  rewrite Hget, bind_Ok, Hfalsy. by destruct (Js.truthy body).
Qed.

Lemma map_detail_or_title (objs : list (list (string * value))) :
  JsProp.map_items
    (fun err => detail ← JsProp.get err "detail";
                if Js.truthy detail then Ok detail else JsProp.get err "title")
    (VObj <$> objs)
  = Ok (detail_or_title <$> objs).
Proof.
  induction objs as [|fs objs IH]; [done|].
  cbn [fmap list_fmap JsProp.map_items]. rewrite !get_object, bind_Ok.
  fold (fmap (M:=list) VObj objs). rewrite IH.
  unfold detail_or_title, Js.or_else.
  by destruct (Js.truthy (Js.field "detail" fs)).
Qed.

(** The message for a body whose [errors] member is a list of objects. *)
Lemma handle_server_error_list status body_fields (objs : list (list (string * value))) :
  Js.field "errors" body_fields = VArr (VObj <$> objs) ->
  _handleRequestError (server_failure status (VObj body_fields))
  = Ok (Rejected (VObj [
      ("message", VStr (("GeckoTerminal API Error: " ++ Js.to_string status)
                        ++ " - " ++ Js.join ", " (detail_or_title <$> objs)));
      ("status", status); ("data", VObj body_fields)])).
Proof.
  intros He. unfold _handleRequestError, server_failure.
  js_simpl. rewrite He. cbn [Js.truthy JsProp.map].
  by rewrite map_detail_or_title, !bind_Ok.
Qed.

(** C2, at the body the normaliser mishandles: when the body of a non-2xx
    response has an [errors] member that is truthy and not a list, calling
    [map] on it throws; the caller gets a [TypeError], not the error
    "GeckoTerminal API Error: {status}". *)
Theorem normalizer_non_list_errors status body_fields :
  Js.truthy (Js.field "errors" body_fields) = true ->
  Js.isArray (Js.field "errors" body_fields) = false ->
  _handleRequestError (server_failure status (VObj body_fields)) = Throw Js.TypeError
  /\ intercept (Failure (server_failure status (VObj body_fields)))
     = Rejected Js.TypeError
  /\ JsProp.get Js.TypeError "message" = Ok VUndef
  /\ JsProp.get Js.TypeError "status" = Ok VUndef.
Proof.
  intros Ht Ha.
  assert (_handleRequestError (server_failure status (VObj body_fields))
          = Throw Js.TypeError) as Hthrow.
  { unfold _handleRequestError, server_failure.
    js_simpl. rewrite Ht.
    destruct (Js.field "errors" body_fields); try discriminate; done. }
  split; [done|]. split; [|done]. unfold intercept. by rewrite Hthrow.
Qed.


(** ** The requests a call issues *)

Section Requests.
Context `{JsNumber}.
Implicit Types (c : GeckoTerminal) (env : Env) (log : list request).

Lemma _get_eq c env endpoint params log :
  _get c env endpoint params log
  = ({| settled := S (arrival env (length log));
        state := intercept (transport env (length log) (axios_get c endpoint params)) |},
     (log ++ [axios_get c endpoint params])%list).
Proof. reflexivity. Qed.

(** What is true of every request of every single call is true of every
    request of the mapped calls. *)
Lemma map_calls_issued (f : value -> list request -> promise * list request)
    (Q : value -> request -> Prop) items log :
  (forall x log0, exists new,
      (f x log0).2 = (log0 ++ new)%list /\ Forall (Q x) new) ->
  exists new, (map_calls f items log).2 = (log ++ new)%list
              /\ Forall (fun r => exists x, x ∈ items /\ Q x r) new.
Proof.
  intros Hf. revert log. induction items as [|x items IH]; intros log; simpl.
  - exists []. by rewrite app_nil_r.
  - destruct (Hf x log) as (new1 & Hlog1 & HQ1).
    destruct (f x log) as [p log1]; simpl in Hlog1; subst log1.
    destruct (IH (log ++ new1)%list) as (new2 & Hlog2 & HQ2).
    destruct (map_calls f items (log ++ new1)%list) as [ps log2]; simpl in *; subst log2.
    exists (new1 ++ new2)%list. split; [by rewrite app_assoc|].
    apply Forall_app. split.
    + eapply Forall_impl; [exact HQ1|]. intros r Hr. exists x. split; [left|done].
    + eapply Forall_impl; [exact HQ2|]. intros r (y & Hy & Hr). exists y. split; [by right|done].
Qed.

Lemma getPool_issued c env n a o log :
  exists new, (getPool c env n a o log).2 = (log ++ new)%list
              /\ Forall (sent_by c (GetPool n a o)) new.
Proof. unfold getPool. preflight; first [nothing_sent | one_sent]. Qed.

Lemma getToken_issued c env n a o log :
  exists new, (getToken c env n a o log).2 = (log ++ new)%list
              /\ Forall (sent_by c (GetToken n a o)) new.
Proof. unfold getToken. preflight; first [nothing_sent | one_sent]. Qed.

(** Every call appends its requests to the log, each with the instance's
    base URL and headers and an endpoint and parameters of the call. *)
Lemma run_issued c env m log :
  exists new, (run c env m log).2 = (log ++ new)%list /\ Forall (sent_by c m) new.
Proof.
  destruct m; simpl.
  - unfold getNetworks. one_sent.
  - unfold getDexes. preflight; first [nothing_sent | one_sent].
  - apply getPool_issued.
  - unfold getPools. preflight; try nothing_sent.
    match goal with |- context [map_calls ?f ?l ?g] =>
      destruct (map_calls_issued f
        (fun a r => sent_by c (GetPool network a
           {| include := Some (from_option id [] (include options)) |}) r) l g)
        as (new & Hlog & Hnew); [intros; apply getPool_issued|];
      destruct (map_calls f l g) as [ps log'] end.
    simpl in *. exists new. split; [done|].
    eapply Forall_impl; [exact Hnew|]. intros r (a & Ha & Hb & Hh & He & Hp).
    repeat split; eauto.
  - unfold getTopPools. preflight; first [nothing_sent | one_sent].
  - unfold getNewPools. preflight; one_sent.
  - unfold getTrendingPools. one_sent.
  - unfold getTrendingPoolsByNetwork. preflight; first [nothing_sent | one_sent].
  - unfold getPoolInfo. preflight; first [nothing_sent | one_sent].
  - apply getToken_issued.
  - unfold getPrices. preflight; try nothing_sent.
    match goal with |- context [map_calls ?f ?l ?g] =>
      destruct (map_calls_issued f
        (fun a r => sent_by c (GetToken network a {| include := None |}) r) l g)
        as (new & Hlog & Hnew); [intros; apply getToken_issued|];
      destruct (map_calls f l g) as [ps log'] end.
    simpl in *. exists new. split; [done|].
    eapply Forall_impl; [exact Hnew|]. intros r (a & Ha & Hb & Hh & He & Hp).
    repeat split; eauto.
  - unfold getPoolOhlcv. preflight; try nothing_sent.
    destruct (getPool_issued c env network poolAddress {| include := None |} log)
      as (new & Hlog & Hnew).
    destruct (getPool _ _ _ _ _ _) as [p log']. simpl in *.
    exists new. split; [done|].
    eapply Forall_impl; [exact Hnew|]. by intros r (Hb & Hh & He & Hp).
  - unfold getTrades. preflight; first [nothing_sent | one_sent].
  - unfold searchPools. preflight; first [nothing_sent | one_sent].
Qed.

Lemma requests_sent c env m r : r ∈ requests_of c env m -> sent_by c m r.
Proof.
  unfold requests_of. destruct (run_issued c env m []) as (new & -> & Hnew).
  rewrite app_nil_l. intros Hr. by eapply Forall_forall in Hnew.
Qed.

End Requests.

(** ** Base URL, version and headers *)

Lemma string_app_assoc (a b c : string) : (a ++ b) ++ c = a ++ b ++ c.
Proof.
  induction a as [|x a IH]; [done|].
  change (String x ((a ++ b) ++ c) = String x (a ++ b ++ c)). by rewrite IH.
Qed.

Lemma str_or_given X d : X ≠ "" -> str_or (Some X) d = X.
Proof. intros HX. unfold str_or. by apply String.eqb_neq in HX as ->. Qed.

Lemma sends_slash m endpoint params :
  sends m endpoint params -> exists rest, endpoint = "/" ++ rest.
Proof.
  destruct m; simpl; intros Hs;
    repeat match goal with
    | H : _ /\ _ |- _ => destruct H
    | H : _ \/ _ |- _ => destruct H
    | H : ex _ |- _ => destruct H
    end; subst; eexists; reflexivity.
Qed.

Section Configuration.
Context `{JsNumber}.
Variable version : string.

(** C9, as the code has it: a client constructed with a non-empty
    [baseUrl = X] and a non-empty [apiVersion = Y] sends every request of
    every endpoint method to [X/Y] followed by the endpoint path; an
    omitted or empty [baseUrl] or [apiVersion] gives the production origin
    and "v2"; every request carries the client's headers, which are the
    caller's headers over the defaults [Accept: application/json] and
    [User-Agent: GeckoTerminal-Node/{version}]. *)
Theorem request_urls_prefixed (options : GeckoTerminalOptions) (env : Env)
    (m : call) (r : request) :
  r ∈ requests_of (constructor version options) env m ->
  (forall X Y, opt_baseUrl options = Some X -> opt_apiVersion options = Some Y ->
     X ≠ "" -> Y ≠ "" ->
     exists path, request_url r = X ++ "/" ++ Y ++ path
                  /\ path = req_endpoint r
                  /\ String.prefix "/" path = true)
  /\ (opt_baseUrl options = None \/ opt_baseUrl options = Some "" ->
      baseUrl (constructor version options) = "https://api.geckoterminal.com/api")
  /\ (opt_apiVersion options = None \/ opt_apiVersion options = Some "" ->
      apiVersion (constructor version options) = "v2")
  /\ request_url r
     = baseUrl (constructor version options) ++ "/"
       ++ apiVersion (constructor version options) ++ req_endpoint r
  /\ req_headers r = headers (constructor version options)
  /\ (forall k v, from_option id ∅ (opt_headers options) !! k = Some v ->
        headers (constructor version options) !! k = Some v)
  /\ (forall k, from_option id ∅ (opt_headers options) !! k = None ->
        headers (constructor version options) !! k = default_headers version !! k)
  /\ default_headers version !! "Accept" = Some "application/json"
  /\ default_headers version !! "User-Agent" = Some ("GeckoTerminal-Node/" ++ version).
Proof.
  intros Hr. apply requests_sent in Hr as (Hbase & Hhead & Hsends).
  assert (request_url r
          = baseUrl (constructor version options) ++ "/"
            ++ apiVersion (constructor version options) ++ req_endpoint r) as Hurl.
  { unfold request_url. rewrite Hbase. simpl. by rewrite !string_app_assoc. }
  split_and!.
  - intros X Y HX HY HXne HYne. exists (req_endpoint r).
    rewrite Hurl. simpl. rewrite HX, HY, !str_or_given by done.
    split; [done|]. split; [done|].
    destruct (sends_slash _ _ _ Hsends) as [rest ->]. by destruct rest.
  - simpl. by intros [-> | ->].
  - simpl. by intros [-> | ->].
  - exact Hurl.
  - exact Hhead.
  - intros k v Hk. simpl. by apply lookup_union_Some_l.
  - intros k Hk. simpl. by rewrite lookup_union_r.
  - unfold default_headers. by rewrite lookup_insert_ne, lookup_insert_eq.
  - unfold default_headers. by rewrite lookup_insert_eq.
Qed.

End Configuration.

(** C9 as stated fails for the empty string: a client constructed with
    [baseUrl = ""] and [apiVersion = "v9"] sends [getNetworks] to the
    production origin, not to a URL that starts with ["/v9"]. *)
Lemma empty_baseUrl_not_a_prefix :
  exists r,
    r ∈ requests_of
          (constructor "1.0.0"
             {| opt_baseUrl := Some ""; opt_apiVersion := Some "v9";
                opt_headers := None |})
          (scripted [] 0) (GetNetworks no_paging)
    /\ request_url r = "https://api.geckoterminal.com/api/v9/networks"
    /\ ~ exists path, request_url r = "" ++ "/" ++ "v9" ++ path.
Proof.
  eexists. split; [left|]. split; [reflexivity|].
  intros [path Hpath]. discriminate Hpath.
Qed.

Lemma request_urls_prefixed_witness :
  exists path,
    request_url
      (axios_get
         (constructor "1.0.0"
            {| opt_baseUrl := Some "http://localhost:8080";
               opt_apiVersion := Some "v3"; opt_headers := None |})
         "/networks" [("page", VNum 1); ("page_size", VNum 100)])
    = "http://localhost:8080" ++ "/" ++ "v3" ++ path
    /\ path = "/networks"
    /\ String.prefix "/" path = true.
Proof.
  refine (proj1 (request_urls_prefixed (H:=symbolic_numbers) "1.0.0"
            {| opt_baseUrl := Some "http://localhost:8080";
               opt_apiVersion := Some "v3"; opt_headers := None |}
            (scripted [] 0) (GetNetworks no_paging) _ _)
          "http://localhost:8080" "v3" eq_refl eq_refl _ _).
  - left.
  - discriminate.
  - discriminate.
Defined.

(** ** Parameter defaults and serialisation *)

Section Parameters.
Context `{JsNumber}.
Implicit Types (c : GeckoTerminal) (env : Env) (m : call) (r : request).

Lemma serialized_params_elem r k v :
  (k, v) ∈ serialized_params r
  <-> (k, v) ∈ req_params r /\ Js.is_undefined v = false.
Proof.
  unfold serialized_params. rewrite !list_elem_of_In, filter_In. simpl.
  by rewrite negb_true_iff.
Qed.

Lemma page_of_omitted pg : page pg = None -> page_of pg = VNum 1.
Proof. unfold page_of. by intros ->. Qed.

Lemma page_size_of_omitted pg : page_size pg = None -> page_size_of pg = VNum 100.
Proof. unfold page_size_of. by intros ->. Qed.

(** C5: for each paginated method (getNetworks, getDexes, getTopPools,
    getNewPools, getTrendingPools, getTrendingPoolsByNetwork, searchPools),
    when the caller omits [page] and [page_size], the parameters of the
    request hold [page = 1] and [page_size = 100], and so does the
    serialised query; the call issues that one request whenever its
    required arguments are given. *)
Theorem paging_defaults c env m pg :
  paginated m = Some pg -> page pg = None -> page_size pg = None ->
  (forall r, r ∈ requests_of c env m ->
     Js.field "page" (req_params r) = VNum 1
     /\ Js.field "page_size" (req_params r) = VNum 100
     /\ ("page", VNum 1) ∈ serialized_params r
     /\ ("page_size", VNum 100) ∈ serialized_params r)
  /\ (forallb Js.truthy (required m) = true ->
      exists r, requests_of c env m = [r]).
Proof.
  intros Hm Hp Hs. split.
  - intros r Hr. apply requests_sent in Hr as (_ & _ & Hsends).
    rewrite !serialized_params_elem.
    destruct m; simpl in Hm; try discriminate; injection Hm as ->;
      simpl in Hsends; destruct Hsends as [_ ->]; unfold list_params;
      rewrite (page_of_omitted _ Hp), (page_size_of_omitted _ Hs); simpl;
      split_and!; try done; repeat first [ by left | right ].
  - intros Hreq.
    destruct m; simpl in Hm; try discriminate; simpl in Hreq;
      rewrite ?andb_true_r in Hreq; unfold requests_of; simpl;
      unfold getNetworks, getDexes, getTopPools, getNewPools, getTrendingPools,
        getTrendingPoolsByNetwork, searchPools;
      rewrite ?Hreq; simpl; by eexists.
Qed.

End Parameters.

Lemma paging_defaults_witness :
  exists r,
    requests_of default_client (scripted [] 0) (GetNetworks no_paging) = [r]
    /\ Js.field "page" (req_params r) = VNum 1
    /\ Js.field "page_size" (req_params r) = VNum 100
    /\ ("page", VNum 1) ∈ serialized_params r
    /\ ("page_size", VNum 100) ∈ serialized_params r.
Proof.
  eexists. split; [reflexivity|].
  apply (proj1 (paging_defaults (H:=symbolic_numbers) default_client (scripted [] 0)
                  (GetNetworks no_paging) no_paging eq_refl eq_refl eq_refl)).
  left.
Defined.

(** ** Undefined parameters and the include list *)

Lemma field_unique k v (ps : list (string * value)) :
  NoDup ps.*1 -> (k, v) ∈ ps -> Js.field k ps = v.
Proof.
  induction ps as [|[k' v'] ps IH]; simpl; intros Hnd Hin.
  - by apply elem_of_nil in Hin.
  - apply NoDup_cons in Hnd as [Hk' Hnd].
    apply elem_of_cons in Hin as [[= <- <-]|Hin].
    + by rewrite String.eqb_refl.
    + destruct (String.eqb_spec k k') as [->|_]; [|by apply IH].
      exfalso. apply Hk'. apply list_elem_of_fmap. by exists (k', v).
Qed.

Lemma sends_keys_nodup m endpoint params :
  sends m endpoint params -> NoDup params.*1.
Proof.
  destruct m; simpl; intros [_ ->]; simpl;
    apply (bool_decide_unpack _); by vm_compute.
Qed.

(** What [_buildIncludeParams] makes of the include list of a call. *)
Lemma buildIncludeParams_list (l : list string) :
  _buildIncludeParams (include_of {| include := Some l |})
  = match l with
    | [] => VUndef
    | _ :: _ => VStr (String.concat "," l)
    end.
Proof.
  destruct l as [|x l]; [done|].
  change (VStr (Js.join "," (VStr <$> (x :: l))) = VStr (String.concat "," (x :: l))).
  by rewrite join_strings.
Qed.

Lemma buildIncludeParams_omitted :
  _buildIncludeParams (include_of {| include := None |}) = VUndef.
Proof. reflexivity. Qed.

Lemma buildIncludeParams_options (o : IncludeParams) :
  _buildIncludeParams (include_of o)
  = match include o with
    | Some (x :: l) => VStr (String.concat "," (x :: l))
    | _ => VUndef
    end.
Proof.
  destruct o as [[l|]]; [|done]. simpl. rewrite buildIncludeParams_list. by destruct l.
Qed.

Lemma sends_include m endpoint params inc :
  sends m endpoint params -> include_capable m = Some inc ->
  ("include", match inc with
              | Some (x :: l) => VStr (String.concat "," (x :: l))
              | _ => VUndef
              end) ∈ params.
Proof.
  destruct m; simpl; intros [_ ->] [= <-];
    rewrite ?buildIncludeParams_list; unfold list_params;
    rewrite ?buildIncludeParams_options;
    try (destruct (include options) as [[|??]|]; simpl);
    repeat first [ by left | right ].
Qed.

Section Serialisation.
Context `{JsNumber}.
Implicit Types (c : GeckoTerminal) (env : Env) (m : call) (r : request).

(** C4: in every request of every endpoint call, the serialised query
    holds exactly the parameters whose value is not [undefined]: a
    parameter that is [undefined] is no key of it.  For an include-capable
    method, a non-empty include list is serialised as [include], the
    comma-joined list; an empty or omitted list leaves no [include] key
    (not an empty string). *)
Theorem undefined_params_omitted c env m r :
  r ∈ requests_of c env m ->
  (forall k v, (k, v) ∈ serialized_params r ->
     v ≠ VUndef /\ (k, v) ∈ req_params r)
  /\ (forall k, Js.field k (req_params r) = VUndef ->
        k ∉ (serialized_params r).*1)
  /\ (forall inc, include_capable m = Some inc ->
        match inc with
        | Some (x :: l) =>
            ("include", VStr (String.concat "," (x :: l))) ∈ serialized_params r
        | _ => "include" ∉ (serialized_params r).*1
        end).
Proof.
  intros Hr. apply requests_sent in Hr as (_ & _ & Hsends).
  pose proof (sends_keys_nodup _ _ _ Hsends) as Hnd.
  assert (forall k, Js.field k (req_params r) = VUndef ->
                    k ∉ (serialized_params r).*1) as Habsent.
  { intros k Hk Hin. apply list_elem_of_fmap in Hin as ([k' v] & -> & Hin).
    apply serialized_params_elem in Hin as [Hin Hv]. simpl in Hk.
    rewrite (field_unique _ _ _ Hnd Hin) in Hk. by subst v. }
  split_and!.
  - intros k v Hin. apply serialized_params_elem in Hin as [Hin Hv].
    split; [|done]. by intros ->.
  - exact Habsent.
  - intros inc Hinc. pose proof (sends_include _ _ _ _ Hsends Hinc) as Hin.
    destruct inc as [[|x l]|].
    + apply Habsent. by apply field_unique.
    + by apply serialized_params_elem.
    + apply Habsent. by apply field_unique.
Qed.

End Serialisation.

Lemma undefined_params_omitted_witness :
  ("include", VStr "base_token,dex")
  ∈ serialized_params
      (axios_get default_client "/networks/eth/pools/0xabc"
         [("include", VStr "base_token,dex")])
  /\ "include"
     ∉ (serialized_params
          (axios_get default_client "/networks/eth/pools/0xabc"
             [("include", VUndef)])).*1.
Proof.
  split.
  - apply (proj2 (proj2 (undefined_params_omitted (H:=symbolic_numbers)
             default_client (scripted [] 0)
             (GetPool (VStr "eth") (VStr "0xabc")
                {| include := Some ["base_token"; "dex"] |}) _
             ltac:(left))) (Some ["base_token"; "dex"]) eq_refl).
  - apply (proj2 (proj2 (undefined_params_omitted (H:=symbolic_numbers)
             default_client (scripted [] 0)
             (GetPool (VStr "eth") (VStr "0xabc") {| include := Some [] |}) _
             ltac:(left))) (Some []) eq_refl).
Defined.

(** ** Pre-flight validation *)

Section Validation.
Context `{JsNumber}.
Implicit Types (c : GeckoTerminal) (env : Env) (log : list request).

(** C6: when the token-address argument of [getPrices] is missing (falsy),
    no array, empty, or longer than 30, the method rejects at once with a
    plain [Error] that has no [status], and the log of requests is
    unchanged; past the check of [network], the message is the one of the
    violated rule. *)
Theorem getPrices_preflight c env network tokenAddresses log :
  Js.truthy tokenAddresses = false
  \/ Js.isArray tokenAddresses = false
  \/ Js.items tokenAddresses = []
  \/ (30 < length (Js.items tokenAddresses))%nat ->
  exists message,
    getPrices c env network tokenAddresses log
    = (rejected_now (Js.new_Error message), log)
    /\ JsProp.get (Js.new_Error message) "status" = Ok VUndef
    /\ (Js.truthy network = true ->
        (30 < length (Js.items tokenAddresses))%nat ->
        message = "Maximum of 30 token addresses allowed")
    /\ (Js.truthy network = true ->
        (Js.truthy tokenAddresses = false
         \/ Js.isArray tokenAddresses = false
         \/ Js.items tokenAddresses = []) ->
        message = "Token addresses parameter is required and must be an array").
Proof.
  intros Hbad. unfold getPrices.
  destruct (Js.truthy network) eqn:Hn; simpl.
  2:{ eexists. split_and!; [reflexivity|done|done..]. }
  destruct (negb (Js.truthy tokenAddresses) || negb (Js.isArray tokenAddresses)
            || (length (Js.items tokenAddresses) =? 0)%nat) eqn:Hshape.
  - eexists. split_and!; [reflexivity|done| |done].
    intros _ Hlen. exfalso.
    destruct tokenAddresses; simpl in *; try lia.
    apply Nat.eqb_eq in Hshape. lia.
  - apply orb_false_iff in Hshape as [Hshape Hlen].
    apply orb_false_iff in Hshape as [Ht Ha].
    apply negb_false_iff in Ht, Ha. apply Nat.eqb_neq in Hlen.
    destruct Hbad as [Hbad|[Hbad|[Hbad|Hbad]]]; try congruence.
    { rewrite Hbad in Hlen. done. }
    apply Nat.ltb_lt in Hbad as Hlt. rewrite Hlt.
    eexists. split_and!; [reflexivity|done|done|].
    intros _ [?|[?|Hnil]]; try congruence. rewrite Hnil in Hlen. done.
Qed.

(** C7, as the code has it: [getPoolOhlcv] with a timeframe outside
    minute, hour, day, week, month, a currency outside usd, token, or a
    limit above 1000 rejects at once with a plain [Error] and leaves the
    log of requests unchanged.  When [network] and the pool address are
    given (their checks come first), the message names the offending
    timeframe or currency and the allowed values, or the bound 1000, and
    with valid values the call goes on to issue a request. *)
Theorem getPoolOhlcv_validation c env network poolAddress options log :
  let tf := from_option id "day" (timeframe options) in
  let cur := from_option id "usd" (currency options) in
  let lim := from_option id 100 (limit options) in
  (includes validTimeframes tf = false
   \/ includes validCurrencies cur = false
   \/ 1000 < lim ->
   exists message,
     getPoolOhlcv c env network poolAddress options log
     = (rejected_now (Js.new_Error message), log)
     /\ JsProp.get (Js.new_Error message) "status" = Ok VUndef
     /\ (Js.truthy network = true -> Js.truthy poolAddress = true ->
         if negb (includes validTimeframes tf) then
           message = "Invalid timeframe: " ++ tf
                     ++ ". Must be one of: minute, hour, day, week, month"
         else if negb (includes validCurrencies cur) then
           message = "Invalid currency: " ++ cur ++ ". Must be one of: usd, token"
         else message = "Maximum limit is 1000"))
  /\ (includes validTimeframes tf = true ->
      includes validCurrencies cur = true ->
      lim <= 1000 ->
      Js.truthy network = true -> Js.truthy poolAddress = true ->
      exists p r, getPoolOhlcv c env network poolAddress options log
                  = (p, (log ++ [r])%list)).
Proof.
  intros tf cur lim. split.
  - intros Hbad. unfold getPoolOhlcv. fold tf cur lim.
    destruct (Js.truthy network); cbn [negb].
    2:{ eexists. split_and!; [reflexivity|done|done]. }
    destruct (Js.truthy poolAddress); cbn [negb].
    2:{ eexists. split_and!; [reflexivity|done|done]. }
    destruct (includes validTimeframes tf); cbn [negb].
    2:{ eexists. split_and!; [reflexivity|done|done]. }
    destruct (includes validCurrencies cur); cbn [negb].
    2:{ eexists. split_and!; [reflexivity|done|done]. }
    destruct (1000 <? lim)%Z eqn:Hl.
    { eexists. split_and!; [reflexivity|done|done]. }
    apply Z.ltb_ge in Hl. destruct Hbad as [?|[?|?]]; try done. lia.
  - intros Htf Hcur Hlim Hn Ha. unfold getPoolOhlcv, getPool. fold tf cur lim.
    rewrite Hn, Ha, Htf, Hcur. cbn [negb].
    apply Z.ltb_ge in Hlim. rewrite Hlim. rewrite _get_eq. by eexists _, _.
Qed.

End Validation.

Lemma getPrices_preflight_witness :
  exists message,
    getPrices default_client (scripted [] 0) (VStr "eth")
      (VArr (replicate 31 (VStr "0xdac17f958d2ee523a2206206994597c13d831ec7"))) []
    = (rejected_now (Js.new_Error message), [])
    /\ message = "Maximum of 30 token addresses allowed".
Proof.
  destruct (getPrices_preflight (H:=symbolic_numbers) default_client (scripted [] 0)
              (VStr "eth")
              (VArr (replicate 31 (VStr "0xdac17f958d2ee523a2206206994597c13d831ec7")))
              [])
    as (message & Hrun & _ & Hmax & _).
  - right; right; right. simpl. lia.
  - exists message. split; [exact Hrun|]. apply Hmax; [reflexivity|simpl; lia].
Defined.

(** C7 as stated fails when the network is missing too: the check of
    [network] comes first, and its message names neither the timeframe
    "year" nor the allowed timeframes. *)
Lemma getPoolOhlcv_network_checked_first :
  getPoolOhlcv default_client (scripted [] 0) (VStr "") (VStr "0xabc")
    {| timeframe := Some "year"; aggregate := None; before_timestamp := None;
       limit := None; currency := None; token := None |} []
  = (rejected_now (Js.new_Error "Network parameter is required"), [])
  /\ "Network parameter is required"
     ≠ "Invalid timeframe: year. Must be one of: minute, hour, day, week, month".
Proof. split; [reflexivity|discriminate]. Qed.

Lemma getPoolOhlcv_validation_witness :
  exists message,
    getPoolOhlcv default_client (scripted [] 0) (VStr "eth") (VStr "0xabc")
      {| timeframe := Some "year"; aggregate := None; before_timestamp := None;
         limit := None; currency := None; token := None |} []
    = (rejected_now (Js.new_Error message), [])
    /\ message = "Invalid timeframe: year. Must be one of: minute, hour, day, week, month".
Proof.
  destruct (proj1 (getPoolOhlcv_validation (H:=symbolic_numbers) default_client
              (scripted [] 0) (VStr "eth") (VStr "0xabc")
              {| timeframe := Some "year"; aggregate := None;
                 before_timestamp := None; limit := None; currency := None;
                 token := None |} []))
    as (message & Hrun & _ & Hmsg).
  - left. reflexivity.
  - exists message. split; [exact Hrun|]. exact (Hmsg eq_refl eq_refl).
Defined.

(** ** Promise.all *)

Lemma first_rejection_fulfilled (ps : list promise) (rs : list value) :
  state <$> ps = Fulfilled <$> rs ->
  first_rejection ps = None /\ fulfilled_values ps = rs.
Proof.
  revert rs. induction ps as [|p ps IH]; intros [|r rs]; try done.
  cbn [fmap list_fmap]. intros [= Hp Hps].
  destruct (IH rs Hps) as [Hnone Hvals]. simpl. by rewrite Hp, Hnone, Hvals.
Qed.

(** The rejection [Promise.all] reports belongs to one of the promises,
    and no rejected promise settles before it. *)
Lemma first_rejection_earliest (ps : list promise) :
  match first_rejection ps with
  | None => forall i p, ps !! i = Some p -> exists v, state p = Fulfilled v
  | Some (t, e) =>
      exists j q, ps !! j = Some q /\ state q = Rejected e /\ settled q = t
        /\ forall k q' e', ps !! k = Some q' -> state q' = Rejected e' ->
                           (t <= settled q')%nat
  end.
Proof.
  induction ps as [|p ps IH]; simpl; [by intros ?? [=]|].
  destruct (state p) as [v|e] eqn:Hp.
  - destruct (first_rejection ps) as [[t e']|].
    + destruct IH as (j & q & Hj & Hq & Ht & Hmin).
      exists (S j), q. split_and!; try done.
      intros [|k] q' e'' Hk Hq'; simpl in Hk; [|by eapply Hmin].
      injection Hk as <-. congruence.
    + intros [|i] q Hi; simpl in Hi; [|by eapply IH].
      injection Hi as <-. by exists v.
  - destruct (first_rejection ps) as [[t e']|].
    + destruct IH as (j & q & Hj & Hq & Ht & Hmin).
      destruct (settled p <=? t)%nat eqn:Hle.
      * apply Nat.leb_le in Hle. exists 0%nat, p. split_and!; try done.
        intros [|k] q' e'' Hk Hq'; simpl in Hk.
        -- by injection Hk as <-.
        -- specialize (Hmin _ _ _ Hk Hq'). lia.
      * apply Nat.leb_gt in Hle. exists (S j), q. split_and!; try done.
        intros [|k] q' e'' Hk Hq'; simpl in Hk; [|by eapply Hmin].
        injection Hk as <-. lia.
    + exists 0%nat, p. split_and!; try done.
      intros [|k] q' e'' Hk Hq'; simpl in Hk.
      * by injection Hk as <-.
      * destruct (IH _ _ Hk) as [v Hv]. congruence.
Qed.

(** When every promise is fulfilled, [Promise.all] is fulfilled with their
    values in order, once the last of them has settled. *)
Lemma Promise_all_fulfilled (ps : list promise) (rs : list value) :
  state <$> ps = Fulfilled <$> rs ->
  Promise_all ps
  = {| settled := foldr Nat.max 0%nat (settled <$> ps);
       state := Fulfilled (VArr rs) |}.
Proof.
  intros Hall. destruct (first_rejection_fulfilled _ _ Hall) as [Hnone Hvals].
  unfold Promise_all. by rewrite Hnone, Hvals.
Qed.

Lemma Promise_all_rejected (ps : list promise) i p e :
  ps !! i = Some p -> state p = Rejected e ->
  exists j q e',
    ps !! j = Some q /\ state q = Rejected e'
    /\ Promise_all ps = {| settled := settled q; state := Rejected e' |}
    /\ forall k q' e'', ps !! k = Some q' -> state q' = Rejected e'' ->
                        (settled q <= settled q')%nat.
Proof.
  intros Hi Hp. pose proof (first_rejection_earliest ps) as Hfirst.
  unfold Promise_all. destruct (first_rejection ps) as [[t e']|].
  - destruct Hfirst as (j & q & Hj & Hq & <- & Hmin). by exists j, q, e'.
  - destruct (Hfirst _ _ Hi) as [v Hv]. congruence.
Qed.

Lemma Promise_all_only_rejection (ps : list promise) i p e :
  ps !! i = Some p -> state p = Rejected e ->
  (forall k q, k ≠ i -> ps !! k = Some q -> exists v, state q = Fulfilled v) ->
  state (Promise_all ps) = Rejected e.
Proof.
  intros Hi Hp Hothers.
  destruct (Promise_all_rejected _ _ _ _ Hi Hp) as (j & q & e' & Hj & Hq & -> & _).
  simpl. destruct (decide (j = i)) as [->|Hne]; [congruence|].
  destruct (Hothers _ _ Hne Hj) as [v Hv]. congruence.
Qed.

Lemma and_then_rejected (p : promise) k e :
  state p = Rejected e -> state (and_then p k) = Rejected e.
Proof.
  unfold and_then. intros Hp. destruct (state p) eqn:Hs; [discriminate|].
  by rewrite Hs.
Qed.

Lemma and_then_fulfilled (p : promise) k v :
  state p = Fulfilled v ->
  and_then p k
  = {| settled := settled p;
       state := match k v with Ok r => Fulfilled r | Throw e => Rejected e end |}.
Proof. unfold and_then. by intros ->. Qed.

(** ** Mapped calls *)

Lemma map_calls_length f (items : list value) log :
  length (map_calls f items log).1 = length items.
Proof.
  revert log. induction items as [|x items IH]; intros log; simpl; [done|].
  destruct (f x log) as [p log1]. specialize (IH log1).
  destruct (map_calls f items log1) as [ps log2]. simpl in *. by rewrite IH.
Qed.

(** The [i]-th promise is the call on the [i]-th item, started on the log
    the calls on the items before it left. *)
Lemma map_calls_lookup f (items : list value) log i a :
  items !! i = Some a ->
  (map_calls f items log).1 !! i
  = Some (f a (map_calls f (take i items) log).2).1.
Proof.
  revert log i. induction items as [|x items IH]; intros log i Hi; [done|].
  simpl. destruct (f x log) as [p log1] eqn:Hf.
  destruct i as [|i]; simpl in *.
  - injection Hi as ->. destruct (map_calls f items log1). simpl. by rewrite Hf.
  - specialize (IH log1 i Hi). rewrite Hf.
    destruct (map_calls f items log1) as [ps log2].
    destruct (map_calls f (take i items) log1) as [ps' log2']. by simpl in *.
Qed.

Lemma map_items_Forall2 (f : value -> throws value) (rs ds : list value) :
  JsProp.map_items f rs = Ok ds <-> Forall2 (fun r d => f r = Ok d) rs ds.
Proof.
  revert ds. induction rs as [|r rs IH]; intros ds; simpl.
  - split; [intros [= <-]; constructor|by inversion 1].
  - split.
    + destruct (f r) as [d|e] eqn:Hr; [|done]. rewrite bind_Ok.
      destruct (JsProp.map_items f rs) as [ds'|e] eqn:Hrs; [|done].
      rewrite bind_Ok. intros [= <-]. constructor; [done|]. by apply IH.
    + inversion 1 as [|?? d ds' Hr Hrs]; subst. rewrite Hr, bind_Ok.
      apply IH in Hrs. by rewrite Hrs.
Qed.

(** When each call sends one request, the mapped calls send one request
    per item, in the order of the items. *)
Lemma map_calls_requests f (g : value -> request) (items : list value) log :
  (forall a log0, a ∈ items -> (f a log0).2 = (log0 ++ [g a])%list) ->
  (map_calls f items log).2 = (log ++ (g <$> items))%list.
Proof.
  revert log. induction items as [|x items IH]; intros log Hf; simpl.
  - by rewrite app_nil_r.
  - pose proof (Hf x log ltac:(left)) as Hx.
    destruct (f x log) as [p log1]. simpl in Hx. subst log1.
    specialize (IH (log ++ [g x])%list).
    destruct (map_calls f items (log ++ [g x])%list) as [ps log2]. simpl in *.
    rewrite IH by (intros; apply Hf; by right).
    by rewrite <-app_assoc.
Qed.

(** ** Fan-out: [getPools] and [getPrices] *)

Section FanOut.
Context `{JsNumber}.
Variables (c : GeckoTerminal) (env : Env) (network : value).
Hypothesis network_given : Js.truthy network = true.

(** Awaiting [Promise.all] and mapping its results: the outcome follows
    from the promises of the single calls. *)
Lemma aggregate_contract (ps : list promise) (k : value -> throws value) :
  (forall rs, state <$> ps = Fulfilled <$> rs ->
     and_then (Promise_all ps) k
     = {| settled := foldr Nat.max 0%nat (settled <$> ps);
          state := match k (VArr rs) with
                   | Ok r => Fulfilled r
                   | Throw e => Rejected e
                   end |})
  /\ (forall i p e, ps !! i = Some p -> state p = Rejected e ->
        exists j q e',
          ps !! j = Some q /\ state q = Rejected e'
          /\ state (and_then (Promise_all ps) k) = Rejected e'
          /\ forall n q' e'', ps !! n = Some q' -> state q' = Rejected e'' ->
                              (settled q <= settled q')%nat)
  /\ (forall i p e, ps !! i = Some p -> state p = Rejected e ->
        (forall n q, n ≠ i -> ps !! n = Some q -> exists v, state q = Fulfilled v) ->
        state (and_then (Promise_all ps) k) = Rejected e).
Proof.
  split_and!.
  - intros rs Hall. rewrite (Promise_all_fulfilled _ _ Hall).
    by rewrite (and_then_fulfilled _ _ (VArr rs)).
  - intros i p e Hi Hp.
    destruct (Promise_all_rejected _ _ _ _ Hi Hp) as (j & q & e' & Hj & Hq & Hall & Hmin).
    exists j, q, e'. split_and!; try done. apply and_then_rejected. by rewrite Hall.
  - intros i p e Hi Hp Hothers.
    by apply and_then_rejected, (Promise_all_only_rejection _ i p).
Qed.

Lemma getPools_eq (items : list value) options log :
  items ≠ [] ->
  getPools c env network (VArr items) options log
  = (and_then (Promise_all (map_calls (pool_call c env network options) items log).1)
       (fun results =>
          data ← JsProp.map results (fun result => JsProp.get result "data");
          included ← first_included (Js.items results);
          Ok (VObj [("data", data); ("included", included)])),
     (map_calls (pool_call c env network options) items log).2).
Proof.
  intros Hne. unfold getPools. rewrite network_given. cbn [negb Js.truthy Js.isArray Js.items orb].
  destruct items as [|a items]; [done|]. cbn [length Nat.eqb].
  by destruct (map_calls _ _ _).
Qed.

Lemma getPrices_eq (items : list value) log :
  items ≠ [] -> (length items <= 30)%nat ->
  getPrices c env network (VArr items) log
  = (and_then (Promise_all (map_calls (token_call c env network) items log).1)
       (fun results =>
          data ← JsProp.map results token_price;
          Ok (VObj [("data", data)])),
     (map_calls (token_call c env network) items log).2).
Proof.
  intros Hne Hlen. unfold getPrices. rewrite network_given.
  cbn [negb Js.truthy Js.isArray Js.items orb].
  destruct items as [|a items]; [done|]. cbn [Nat.eqb length].
  apply Nat.ltb_ge in Hlen. cbn [length] in Hlen. rewrite Hlen.
  by destruct (map_calls _ _ _).
Qed.

(** A single call with its address given sends one request; its promise
    is what the interceptor makes of the reply. *)
Lemma pool_call_sent options a log :
  Js.truthy a = true ->
  pool_call c env network options a log
  = (let req :=
       axios_get c
         ("/networks/" ++ Js.to_string network ++ "/pools/" ++ Js.to_string a)
         [("include", _buildIncludeParams (include_of
             {| include := Some (from_option id [] (include options)) |}))] in
     ({| settled := S (arrival env (length log));
         state := intercept (transport env (length log) req) |},
      (log ++ [req])%list)).
Proof. intros Ha. unfold pool_call, getPool. by rewrite network_given, Ha. Qed.

Lemma token_call_sent a log :
  Js.truthy a = true ->
  token_call c env network a log
  = (let req :=
       axios_get c
         ("/networks/" ++ Js.to_string network ++ "/tokens/" ++ Js.to_string a)
         [("include", VUndef)] in
     ({| settled := S (arrival env (length log));
         state := intercept (transport env (length log) req) |},
      (log ++ [req])%list)).
Proof. intros Ha. unfold token_call, getToken. by rewrite network_given, Ha. Qed.

(** A single call without its address is rejected before any request. *)
Lemma pool_call_refused options a log :
  Js.truthy a = false ->
  pool_call c env network options a log
  = (rejected_now (Js.new_Error "Pool address parameter is required"), log).
Proof. intros Ha. unfold pool_call, getPool. by rewrite network_given, Ha. Qed.

Lemma token_call_refused a log :
  Js.truthy a = false ->
  token_call c env network a log
  = (rejected_now (Js.new_Error "Token address parameter is required"), log).
Proof. intros Ha. unfold token_call, getToken. by rewrite network_given, Ha. Qed.

Lemma first_included_returns (rs : list value) :
  exists inc, first_included rs = Ok inc.
Proof. destruct rs as [|[] rs]; simpl; by eexists. Qed.

(** C8, as the code has it: given a network and a non-empty list of
    addresses, [getPools] starts one [getPool] call per address, in order,
    and sends nothing else (one request per address when none is falsy);
    when all of them are fulfilled it is fulfilled once the last has
    settled and its [data] is the list of their [data], in the order of
    the addresses; when one of them is rejected it is
    rejected with the error of a rejected call, the earliest to settle (so
    with the error of the failing call when only one fails), and returns
    no data.  The same holds of [getPrices] and [getToken] for at most 30
    addresses, with the price record of each token for [data]. *)
Theorem fan_out (items : list value) (options : IncludeParams) (log : list request) :
  items ≠ [] ->
  let pools := getPools c env network (VArr items) options log in
  let pool_promises := (map_calls (pool_call c env network options) items log).1 in
  let prices := getPrices c env network (VArr items) log in
  let token_promises := (map_calls (token_call c env network) items log).1 in
  (pools.2 = (map_calls (pool_call c env network options) items log).2
   /\ (Forall (fun a => Js.truthy a = true) items ->
       pools.2
       = (log ++ ((fun a =>
            axios_get c
              ("/networks/" ++ Js.to_string network ++ "/pools/" ++ Js.to_string a)
              [("include", _buildIncludeParams (include_of
                  {| include := Some (from_option id [] (include options)) |}))])
            <$> items))%list)
   /\ length pool_promises = length items
   /\ (forall i a, items !! i = Some a ->
         pool_promises !! i
         = Some (pool_call c env network options a
                   (map_calls (pool_call c env network options) (take i items) log).2).1)
   /\ (forall rs ds, state <$> pool_promises = Fulfilled <$> rs ->
         Forall2 (fun r d => JsProp.get r "data" = Ok d) rs ds ->
         exists inc,
           pools.1
           = {| settled := foldr Nat.max 0%nat (settled <$> pool_promises);
                state := Fulfilled (VObj [("data", VArr ds); ("included", inc)]) |})
   /\ (forall i p e, pool_promises !! i = Some p -> state p = Rejected e ->
         exists j q e',
           pool_promises !! j = Some q /\ state q = Rejected e'
           /\ state pools.1 = Rejected e'
           /\ forall n q' e'', pool_promises !! n = Some q' ->
                 state q' = Rejected e'' -> (settled q <= settled q')%nat)
   /\ (forall i p e, pool_promises !! i = Some p -> state p = Rejected e ->
         (forall n q, n ≠ i -> pool_promises !! n = Some q ->
                      exists v, state q = Fulfilled v) ->
         state pools.1 = Rejected e))
  /\ ((length items <= 30)%nat ->
      prices.2 = (map_calls (token_call c env network) items log).2
      /\ (Forall (fun a => Js.truthy a = true) items ->
          prices.2
          = (log ++ ((fun a =>
               axios_get c
                 ("/networks/" ++ Js.to_string network ++ "/tokens/" ++ Js.to_string a)
                 [("include", VUndef)])
               <$> items))%list)
      /\ length token_promises = length items
      /\ (forall i a, items !! i = Some a ->
            token_promises !! i
            = Some (token_call c env network a
                      (map_calls (token_call c env network) (take i items) log).2).1)
      /\ (forall rs ds, state <$> token_promises = Fulfilled <$> rs ->
            Forall2 (fun r d => token_price r = Ok d) rs ds ->
            prices.1
            = {| settled := foldr Nat.max 0%nat (settled <$> token_promises);
                 state := Fulfilled (VObj [("data", VArr ds)]) |})
      /\ (forall i p e, token_promises !! i = Some p -> state p = Rejected e ->
            exists j q e',
              token_promises !! j = Some q /\ state q = Rejected e'
              /\ state prices.1 = Rejected e'
              /\ forall n q' e'', token_promises !! n = Some q' ->
                    state q' = Rejected e'' -> (settled q <= settled q')%nat)
      /\ (forall i p e, token_promises !! i = Some p -> state p = Rejected e ->
            (forall n q, n ≠ i -> token_promises !! n = Some q ->
                         exists v, state q = Fulfilled v) ->
            state prices.1 = Rejected e)).
Proof.
  intros Hne pools pool_promises prices token_promises. split.
  - subst pools. rewrite (getPools_eq items options log Hne). cbn [fst snd].
    match goal with |- context [and_then _ ?k] =>
      destruct (aggregate_contract pool_promises k) as (Hok & Hrej & Hone) end.
    split_and!; try done.
    + intros Htruthy. apply map_calls_requests. intros a log0 Ha.
      unfold pool_call, getPool. rewrite network_given.
      by rewrite (proj1 (Forall_forall _ _) Htruthy a Ha).
    + apply map_calls_length.
    + intros i a Hi. by apply map_calls_lookup.
    + intros rs ds Hall Hds. fold pool_promises. rewrite (Hok rs Hall).
      apply map_items_Forall2 in Hds. cbn [JsProp.map Js.items].
      rewrite Hds, !bind_Ok. cbn [Js.items].
      destruct (first_included_returns rs) as [inc Hinc].
      exists inc. by rewrite Hinc.
  - intros Hlen. subst prices. rewrite (getPrices_eq items log Hne Hlen). cbn [fst snd].
    match goal with |- context [and_then _ ?k] =>
      destruct (aggregate_contract token_promises k) as (Hok & Hrej & Hone) end.
    split_and!; try done.
    + intros Htruthy. apply map_calls_requests. intros a log0 Ha.
      unfold token_call, getToken. rewrite network_given.
      by rewrite (proj1 (Forall_forall _ _) Htruthy a Ha).
    + apply map_calls_length.
    + intros i a Hi. by apply map_calls_lookup.
    + intros rs ds Hall Hds. fold token_promises. rewrite (Hok rs Hall).
      apply map_items_Forall2 in Hds. cbn [JsProp.map].
      by rewrite Hds, !bind_Ok.
Qed.

End FanOut.

(** C8 as stated fails for a sequence the pre-flight checks refuse: for 31
    token addresses [getPrices] rejects at once and starts no [getToken]
    call, so no request is sent, where the 31 single calls would send 31. *)
Lemma getPrices_31_addresses_no_call :
  length (Js.items (VArr (replicate 31 (VStr "0xc02aaa39b223fe8d0a0e5c4f27ead9083c756cc2"))))
  = 31%nat
  /\ getPrices default_client (scripted [] 0) (VStr "eth")
       (VArr (replicate 31 (VStr "0xc02aaa39b223fe8d0a0e5c4f27ead9083c756cc2"))) []
     = (rejected_now (Js.new_Error "Maximum of 30 token addresses allowed"), [])
  /\ length (map_calls (token_call default_client (scripted [] 0) (VStr "eth"))
               (replicate 31 (VStr "0xc02aaa39b223fe8d0a0e5c4f27ead9083c756cc2")) []).2
     = 31%nat.
Proof. split; [reflexivity|]. split; [reflexivity|]. by vm_compute. Qed.

Lemma fan_out_witness :
  state (getPools default_client
           (scripted [(Response sample_pool, 5%nat); (Failure no_response, 2%nat)] 0)
           (VStr "eth") (VArr [VStr "0xA"; VStr "0xB"]) no_include []).1
  = Rejected (Js.new_Error "No response received from GeckoTerminal API").
Proof.
  refine (proj2 (proj2 (proj2 (proj2 (proj2 (proj2 (proj1
    (fan_out (H:=symbolic_numbers) default_client
       (scripted [(Response sample_pool, 5%nat); (Failure no_response, 2%nat)] 0)
       (VStr "eth") eq_refl [VStr "0xA"; VStr "0xB"] no_include [] _)))))))
    1%nat _ _ eq_refl eq_refl _).
  - discriminate.
  - intros [|[|n]] q Hn Hq; [|done|discriminate Hq].
    injection Hq as <-. by eexists.
Defined.

(** ** The [included] member of [getPools] *)

Section Included.
Context `{JsNumber}.
Implicit Types (c : GeckoTerminal) (env : Env) (log : list request).

Lemma first_included_of (r0 : value) (rs : list value) d :
  JsProp.get r0 "data" = Ok d ->
  exists inc0, JsProp.get r0 "included" = Ok inc0
               /\ first_included (r0 :: rs) = Ok (Js.or_else inc0 (VArr [])).
Proof.
  destruct r0; simpl; intros Hd; try discriminate; eexists; split; reflexivity.
Qed.

(** C10: when [getPools] is fulfilled, its [included] member is the
    [included] member of the result of the first [getPool] call, or the
    empty list when that member is absent (or falsy); what the other calls
    returned as [included] plays no part. *)
Theorem getPools_included_from_first c env network poolAddresses options log v :
  state (getPools c env network poolAddresses options log).1 = Fulfilled v ->
  exists a rest r0 inc0,
    Js.items poolAddresses = a :: rest
    /\ state (pool_call c env network options a log).1 = Fulfilled r0
    /\ JsProp.get r0 "included" = Ok inc0
    /\ JsProp.get v "included" = Ok (Js.or_else inc0 (VArr []))
    /\ (inc0 = VUndef -> JsProp.get v "included" = Ok (VArr [])).
Proof.
  unfold getPools.
  destruct (negb (Js.truthy network)); [done|].
  destruct (negb (Js.truthy poolAddresses) || negb (Js.isArray poolAddresses)
            || (length (Js.items poolAddresses) =? 0)%nat) eqn:Hshape; [done|].
  destruct (Js.items poolAddresses) as [|a rest]; [by rewrite !orb_true_r in Hshape|].
  cbn [map_calls].
  destruct (pool_call c env network options a log) as [p0 log1] eqn:Hp0.
  destruct (map_calls (pool_call c env network options) rest log1) as [ps log2].
  cbn [fst]. unfold and_then, Promise_all. cbn [first_rejection fulfilled_values].
  destruct (state p0) as [r0|e0] eqn:Hr0.
  2:{ destruct (first_rejection ps) as [[t e]|]; [|done].
      by destruct (settled p0 <=? t)%nat. }
  destruct (first_rejection ps) as [[t e]|]; [done|]. cbn [state JsProp.map JsProp.map_items].
  destruct (JsProp.get r0 "data") as [d|e] eqn:Hd; [|done]. rewrite bind_Ok.
  destruct (JsProp.map_items _ (fulfilled_values ps)) as [ds|e]; [|done].
  rewrite !bind_Ok. cbn [Js.items].
  destruct (first_included_of r0 (fulfilled_values ps) d Hd) as (inc0 & Hinc0 & ->).
  rewrite bind_Ok. intros [= <-].
  exists a, rest, r0, inc0. split_and!; try done.
  - by rewrite Hp0.
  - by intros ->.
Qed.

End Included.

Lemma getPools_included_from_first_witness :
  exists v,
    state (getPools default_client
             (scripted [(Response sample_pool, 5%nat);
                        (Response (VObj [("data", VObj [("id", VStr "eth_0xB")]);
                                         ("included", VArr [VStr "dropped"])]),
                         2%nat)] 0)
             (VStr "eth") (VArr [VStr "0xA"; VStr "0xB"]) no_include []).1
    = Fulfilled v
    /\ JsProp.get v "included" = JsProp.get sample_pool "included"
    /\ exists a rest r0 inc0,
         Js.items (VArr [VStr "0xA"; VStr "0xB"]) = a :: rest
         /\ state (pool_call default_client
                     (scripted [(Response sample_pool, 5%nat);
                                (Response (VObj [("data", VObj [("id", VStr "eth_0xB")]);
                                                 ("included", VArr [VStr "dropped"])]),
                                 2%nat)] 0)
                     (VStr "eth") no_include a []).1 = Fulfilled r0
         /\ JsProp.get r0 "included" = Ok inc0
         /\ JsProp.get v "included" = Ok (Js.or_else inc0 (VArr []))
         /\ (inc0 = VUndef -> JsProp.get v "included" = Ok (VArr [])).
Proof.
  eexists. split; [reflexivity|]. split; [reflexivity|].
  apply (getPools_included_from_first (H:=symbolic_numbers)). reflexivity.
Defined.

(** ** [getPoolOhlcv] *)

Section Ohlcv.
Context `{JsNumber}.
Implicit Types (c : GeckoTerminal) (env : Env) (log : list request).

(** C1, on the code: for a valid call, [getPoolOhlcv] of the source sends
    one request, the pool fetch [/networks/{network}/pools/{poolAddress}]
    with no parameter but an undefined [include]; none of [timeframe],
    [aggregate], [before_timestamp], [limit], [currency], [token] is sent
    and no request goes to [/ohlcv].  When the pool arrives, the result is
    the list of candles [mock_candles] draws from the clock and
    [Math.random()], not a response of the API.  The build under [dist/]
    does what the claim says: one request to [.../ohlcv] with the six
    parameters, whose response it returns. *)
Theorem getPoolOhlcv_fabricates_data c env network poolAddress options log :
  let tf := from_option id "day" (timeframe options) in
  let cur := from_option id "usd" (currency options) in
  let lim := from_option id 100 (limit options) in
  let agg := from_option id 1 (aggregate options) in
  let pool_fetch :=
    axios_get c
      ("/networks/" ++ Js.to_string network ++ "/pools/" ++ Js.to_string poolAddress)
      [("include", VUndef)] in
  let ohlcv_fetch :=
    axios_get c
      ("/networks/" ++ Js.to_string network ++ "/pools/"
       ++ Js.to_string poolAddress ++ "/ohlcv")
      [("timeframe", VStr tf); ("aggregate", VNum agg);
       ("before_timestamp", Js.opt_num (before_timestamp options));
       ("limit", VNum lim); ("currency", VStr cur);
       ("token", VStr (from_option id "base" (token options)))] in
  Js.truthy network = true -> Js.truthy poolAddress = true ->
  includes validTimeframes tf = true -> includes validCurrencies cur = true ->
  lim <= 1000 ->
  (getPoolOhlcv c env network poolAddress options log).2 = (log ++ [pool_fetch])%list
  /\ pool_fetch ≠ ohlcv_fetch
  /\ (forall pool,
        transport env (length log) pool_fetch = Response pool ->
        state (getPoolOhlcv c env network poolAddress options log).1
        = match mock_candles env pool (seconds_of tf * num_or agg 1)
                  (Z.to_nat (num_or lim 100)) 0 with
          | Ok candles => Fulfilled (VObj [("data", VArr candles)])
          | Throw e => Rejected e
          end)
  /\ dist_getPoolOhlcv c env network poolAddress options log
     = ({| settled := S (arrival env (length log));
           state := intercept (transport env (length log) ohlcv_fetch) |},
        (log ++ [ohlcv_fetch])%list).
Proof.
  intros tf cur lim agg pool_fetch ohlcv_fetch Hn Ha Htf Hcur Hlim.
  apply Z.ltb_ge in Hlim.
  split_and!.
  - unfold getPoolOhlcv, getPool. fold tf cur lim.
    by rewrite Hn, Ha, Htf, Hcur, Hlim.
  - intros Heq. apply (f_equal req_params) in Heq. discriminate Heq.
  - intros pool Hpool. unfold getPoolOhlcv, getPool. fold tf cur lim agg.
    rewrite Hn, Ha, Htf, Hcur, Hlim. cbn [negb]. rewrite _get_eq. cbn [fst].
    unfold and_then. cbn [state settled].
    change (axios_get c _ _) with pool_fetch. rewrite Hpool. cbn [intercept].
    by destruct (mock_candles _ _ _ _ _).
  - unfold dist_getPoolOhlcv. fold tf cur lim agg.
    by rewrite Hn, Ha, Htf, Hcur, Hlim.
Qed.

End Ohlcv.

Lemma getPoolOhlcv_fabricates_data_witness :
  state (getPoolOhlcv default_client
           (scripted [(Response sample_pool, 0%nat)] 1700000000)
           (VStr "eth") (VStr "0xabc")
           {| timeframe := Some "hour"; aggregate := None; before_timestamp := None;
              limit := Some 1; currency := None; token := None |} []).1
  = Fulfilled (VObj [("data", VArr [VObj [
      ("timestamp", VNum 1700000000);
      ("open", VStr "(parseFloat(1.5) * (0.98 + (r0 * 0.04)))");
      ("high", VStr "((parseFloat(1.5) * (0.98 + (r0 * 0.04))) * 1.01)");
      ("low", VStr "((parseFloat(1.5) * (0.98 + (r0 * 0.04))) * 0.99)");
      ("close",
       VStr "((parseFloat(1.5) * (0.98 + (r0 * 0.04))) * (0.995 + (r1 * 0.01)))");
      ("volume", VStr "(r2 * 1000000)")]])])
  /\ (getPoolOhlcv default_client
        (scripted [(Response sample_pool, 0%nat)] 1700000000)
        (VStr "eth") (VStr "0xabc")
        {| timeframe := Some "hour"; aggregate := None; before_timestamp := None;
           limit := Some 1; currency := None; token := None |} []).2
     = [axios_get default_client "/networks/eth/pools/0xabc" [("include", VUndef)]].
Proof.
  pose proof (getPoolOhlcv_fabricates_data (H:=symbolic_numbers) default_client
                (scripted [(Response sample_pool, 0%nat)] 1700000000)
                (VStr "eth") (VStr "0xabc")
                {| timeframe := Some "hour"; aggregate := None;
                   before_timestamp := None; limit := Some 1; currency := None;
                   token := None |} []
                eq_refl eq_refl eq_refl eq_refl ltac:(simpl; lia))
    as (Hlog & _ & Hstate & _).
  split; [|exact Hlog]. exact (Hstate sample_pool eq_refl).
Defined.

(** ** The normaliser on concrete failures *)

Lemma normalizer_three_way_witness :
  (exists e,
     _handleRequestError no_response = Ok (Rejected e)
     /\ JsProp.get e "message" = Ok (VStr "No response received from GeckoTerminal API")
     /\ JsProp.get e "status" = Ok VUndef
     /\ JsProp.get e "data" = Ok VUndef
     /\ JsProp.get e "body" = Ok VUndef)
  /\ _handleRequestError (VObj [("message", VStr "Invalid URL")])
     = Ok (Rejected (VObj [("message", VStr "Invalid URL")])).
Proof.
  split.
  - exact (proj2 (proj2 (proj1 (normalizer_three_way
             [("message", VStr "Network Error"); ("request", VObj [])])))).
  - exact (proj2 (proj2 (proj1 (normalizer_three_way
             [("message", VStr "Invalid URL")])))).
Defined.

Lemma normalizer_non_list_errors_witness :
  _handleRequestError
    (server_failure (VNum 500) (VObj [("errors", VStr "Internal Server Error")]))
  = Throw Js.TypeError
  /\ intercept
       (Failure (server_failure (VNum 500)
                   (VObj [("errors", VStr "Internal Server Error")])))
     = Rejected Js.TypeError
  /\ JsProp.get Js.TypeError "message" = Ok VUndef
  /\ JsProp.get Js.TypeError "status" = Ok VUndef.
Proof.
  exact (normalizer_non_list_errors (VNum 500)
           [("errors", VStr "Internal Server Error")] eq_refl eq_refl).
Defined.

(** Status 404 with body [{errors: [{detail: "not found"}]}]. *)
Example normalizer_404 :
  promise_of default_client
    (scripted [(Failure (server_failure (VNum 404)
                  (VObj [("errors", VArr [VObj [("detail", VStr "not found")]])])),
                0%nat)] 0)
    (GetNetworks no_paging)
  = {| settled := 1;
       state := Rejected (VObj [
         ("message", VStr "GeckoTerminal API Error: 404 - not found");
         ("status", VNum 404);
         ("data", VObj [("errors", VArr [VObj [("detail", VStr "not found")]])])]) |}.
Proof. reflexivity. Qed.

(** A body without [errors]: the message is the status alone. *)
Example normalizer_503_plain :
  _handleRequestError (server_failure (VNum 503) (VStr "Service Unavailable"))
  = Ok (Rejected (VObj [("message", VStr "GeckoTerminal API Error: 503");
                        ("status", VNum 503);
                        ("data", VStr "Service Unavailable")])).
Proof. apply handle_server_error_plain. right. by exists VUndef. Qed.

(** [detail] wins over [title]; an error with neither joins as nothing. *)
Example normalizer_detail_then_title :
  _handleRequestError
    (server_failure (VNum 422)
       (VObj [("errors", VArr [VObj [("title", VStr "Invalid"); ("detail", VStr "bad page")];
                               VObj [("title", VStr "Unprocessable")];
                               VObj []])]))
  = Ok (Rejected (VObj [
      ("message", VStr "GeckoTerminal API Error: 422 - bad page, Unprocessable, ");
      ("status", VNum 422);
      ("data", VObj [("errors",
         VArr [VObj [("title", VStr "Invalid"); ("detail", VStr "bad page")];
               VObj [("title", VStr "Unprocessable")];
               VObj []])])])).
Proof. reflexivity. Qed.

Example normalizer_no_response :
  _handleRequestError no_response
  = Ok (Rejected (Js.new_Error "No response received from GeckoTerminal API")).
Proof. reflexivity. Qed.

Example normalizer_setup_failure :
  _handleRequestError (VObj [("message", VStr "Invalid URL")])
  = Ok (Rejected (VObj [("message", VStr "Invalid URL")])).
Proof. reflexivity. Qed.

(** Addresses [A, B] where fetching [B] fails with status 404: the
    aggregate fails with [B]'s error although [A] answered first. *)
Example getPools_second_fails :
  promise_of default_client
    (scripted [(Response sample_pool, 1%nat);
               (Failure (server_failure (VNum 404) VNull), 7%nat)] 0)
    (GetPools (VStr "eth") (VArr [VStr "0xA"; VStr "0xB"]) no_include)
  = {| settled := 8;
       state := Rejected (VObj [("message", VStr "GeckoTerminal API Error: 404");
                                ("status", VNum 404); ("data", VNull)]) |}.
Proof. reflexivity. Qed.

Example getPools_requests :
  req_endpoint
    <$> requests_of default_client (scripted [] 0)
          (GetPools (VStr "solana") (VArr [VStr "FpCM"; VStr "3ne4"])
             {| include := Some ["base_token"; "dex"] |})
  = ["/networks/solana/pools/FpCM"; "/networks/solana/pools/3ne4"].
Proof. reflexivity. Qed.

(** Without options the mock has 100 candles, a day apart. *)
Example getPoolOhlcv_default_options :
  exists candles,
    state (promise_of default_client (scripted [(Response sample_pool, 0%nat)] 86400000)
             (GetPoolOhlcv (VStr "eth") (VStr "0xabc") no_ohlcv_options))
    = Fulfilled (VObj [("data", VArr candles)])
    /\ length candles = 100%nat
    /\ (fun candle => Js.field "timestamp" (match candle with VObj fs => fs | _ => [] end))
         <$> take 3 candles
       = [VNum 86400000; VNum 86313600; VNum 86227200].
Proof. eexists. split; [reflexivity|]. split; reflexivity. Qed.

Example getPrices_in_order :
  state (promise_of default_client
    (scripted
       [(Response (VObj [("data", VObj [("id", VStr "eth_usdt");
            ("attributes", VObj [("address", VStr "0xdac"); ("price_usd", VStr "1.0")])])]),
         9%nat);
        (Response (VObj [("data", VObj [("id", VStr "eth_weth");
            ("attributes", VObj [("address", VStr "0xc02")])])]),
         2%nat)] 0)
    (GetPrices (VStr "eth") (VArr [VStr "0xdac"; VStr "0xc02"])))
  = Fulfilled (VObj [("data", VArr [
      VObj [("id", VStr "eth_usdt"); ("type", VStr "token_price");
            ("attributes", VObj [("address", VStr "0xdac"); ("price_usd", VStr "1.0");
                                 ("price_24h_change_percentage", VStr "0")])];
      VObj [("id", VStr "eth_weth"); ("type", VStr "token_price");
            ("attributes", VObj [("address", VStr "0xc02"); ("price_usd", VStr "0");
                                 ("price_24h_change_percentage", VStr "0")])]])]).
Proof. reflexivity. Qed.

(** * Further properties of the code *)

(** ** Required arguments, requests and results of every method *)

Section EveryMethod.
Context `{JsNumber}.
Implicit Types (c : GeckoTerminal) (env : Env) (m : call) (log : list request).

(** A call with a required positional argument missing (falsy) is rejected
    before any request, with the plain error of the first failing check;
    the log of requests stays as it was. *)
Theorem missing_argument_rejected c env m log v :
  v ∈ required m -> Js.truthy v = false ->
  exists message,
    run c env m log = (rejected_now (Js.new_Error message), log)
    /\ message ∈ required_messages.
Proof.
  intros Hin Hv.
  destruct m; simpl in Hin;
    repeat (apply elem_of_cons in Hin as [->|Hin]);
    try (by apply elem_of_nil in Hin); simpl;
    unfold getDexes, getPool, getPools, getTopPools, getTrendingPoolsByNetwork,
      getPoolInfo, getToken, getPrices, getPoolOhlcv, getTrades, searchPools;
    rewrite ?Hv; cbn [negb orb];
    try match goal with
        | |- context [negb (Js.truthy ?n)] => destruct (Js.truthy n); cbn [negb]
        end;
    reject_now.
Qed.

Lemma map_calls_same_requests
    (f g : value -> list request -> promise * list request) items log :
  (forall x log0, (f x log0).2 = (g x log0).2) ->
  (map_calls f items log).2 = (map_calls g items log).2.
Proof.
  intros Hfg. revert log. induction items as [|x items IH]; intros log; [done|].
  simpl. specialize (Hfg x log).
  destruct (f x log) as [p log1], (g x log) as [q log1']. simpl in Hfg. subst log1'.
  specialize (IH log1).
  by destruct (map_calls f items log1), (map_calls g items log1).
Qed.

(** The requests a call sends are the same whatever the transport
    answers: no reply leads to a retry or to a further request. *)
Theorem requests_independent_of_replies c (env env' : Env) m log :
  (run c env m log).2 = (run c env' m log).2.
Proof.
  destruct m; simpl;
    unfold getNetworks, getDexes, getPool, getTopPools, getNewPools,
      getTrendingPools, getTrendingPoolsByNetwork, getPoolInfo, getToken,
      getTrades, searchPools;
    try (preflight; reflexivity).
  - unfold getPools. preflight; try reflexivity.
    pose proof (map_calls_same_requests (pool_call c env network options)
                  (pool_call c env' network options) (Js.items poolAddresses) log) as Hsame.
    destruct (map_calls (pool_call c env network options) _ _),
             (map_calls (pool_call c env' network options) _ _).
    simpl in *. apply Hsame. intros x log0. unfold pool_call, getPool.
    by preflight.
  - unfold getPrices. preflight; try reflexivity.
    pose proof (map_calls_same_requests (token_call c env network)
                  (token_call c env' network) (Js.items tokenAddresses) log) as Hsame.
    destruct (map_calls (token_call c env network) _ _),
             (map_calls (token_call c env' network) _ _).
    simpl in *. apply Hsame. intros x log0. unfold token_call, getToken.
    by preflight.
  - unfold getPoolOhlcv, getPool. by preflight.
Qed.

Lemma map_calls_at_most
    (f : value -> list request -> promise * list request) items log :
  (forall x log0, exists new,
      (f x log0).2 = (log0 ++ new)%list /\ (length new <= 1)%nat) ->
  exists new, (map_calls f items log).2 = (log ++ new)%list
              /\ (length new <= length items)%nat.
Proof.
  intros Hf. revert log. induction items as [|x items IH]; intros log; simpl.
  - exists []. by rewrite app_nil_r.
  - destruct (Hf x log) as (new1 & Hlog1 & Hlen1).
    destruct (f x log) as [p log1]; simpl in Hlog1; subst log1.
    destruct (IH (log ++ new1)%list) as (new2 & Hlog2 & Hlen2).
    destruct (map_calls f items (log ++ new1)%list) as [ps log2]; simpl in *; subst log2.
    exists (new1 ++ new2)%list. split; [by rewrite app_assoc|].
    rewrite length_app. lia.
Qed.

(** A call only appends to the log of requests, and appends at most one
    request, or at most one per address for [getPools] and [getPrices]. *)
Theorem request_count_bound c env m log :
  exists new, (run c env m log).2 = (log ++ new)%list
              /\ (length new <= max_requests m)%nat.
Proof.
  assert (forall n a o log0, exists new,
            (getPool c env n a o log0).2 = (log0 ++ new)%list
            /\ (length new <= 1)%nat) as Hpool.
  { intros. unfold getPool. preflight; first [none_sent | single_sent]. }
  assert (forall n a o log0, exists new,
            (getToken c env n a o log0).2 = (log0 ++ new)%list
            /\ (length new <= 1)%nat) as Htoken.
  { intros. unfold getToken. preflight; first [none_sent | single_sent]. }
  destruct m; cbn [run max_requests];
    unfold getNetworks, getDexes, getTopPools, getNewPools, getTrendingPools,
      getTrendingPoolsByNetwork, getPoolInfo, getTrades, searchPools;
    try apply Hpool; try apply Htoken;
    try (preflight; first [none_sent | single_sent]).
  - unfold getPools. preflight; try none_sent.
    destruct (map_calls_at_most (pool_call c env network options)
                (Js.items poolAddresses) log) as (new & Hlog & Hlen);
      [intros; apply Hpool|].
    destruct (map_calls _ _ _). simpl in *. by exists new.
  - unfold getPrices. preflight; try none_sent.
    destruct (map_calls_at_most (token_call c env network)
                (Js.items tokenAddresses) log) as (new & Hlog & Hlen);
      [intros; apply Htoken|].
    destruct (map_calls _ _ _). simpl in *. by exists new.
  - unfold getPoolOhlcv. preflight; try none_sent.
    destruct (Hpool network poolAddress {| include := None |} log) as (new & Hlog & Hlen).
    destruct (getPool _ _ _ _ _ _). simpl in *. by exists new.
Qed.

(** A method that hands on what [_get] returns, called with its required
    arguments, sends one request; it is fulfilled with the parsed body of
    the response, untouched, and rejected with what the error normaliser
    makes of a failure. *)
Theorem pass_through_result c env m log :
  pass_through m = true ->
  Forall (fun v => Js.truthy v = true) (required m) ->
  exists r,
    sends m (req_endpoint r) (req_params r)
    /\ run c env m log
       = ({| settled := S (arrival env (length log));
             state := intercept (transport env (length log) r) |},
          (log ++ [r])%list)
    /\ (forall data, transport env (length log) r = Response data ->
          state (run c env m log).1 = Fulfilled data)
    /\ (forall error, transport env (length log) r = Failure error ->
          state (run c env m log).1 = intercept (Failure error)).
Proof.
  intros Hm Hreq.
  assert (forall r,
            run c env m log
            = ({| settled := S (arrival env (length log));
                  state := intercept (transport env (length log) r) |},
               (log ++ [r])%list) ->
            sends m (req_endpoint r) (req_params r) ->
            exists r0,
              sends m (req_endpoint r0) (req_params r0)
              /\ run c env m log
                 = ({| settled := S (arrival env (length log));
                       state := intercept (transport env (length log) r0) |},
                    (log ++ [r0])%list)
              /\ (forall data, transport env (length log) r0 = Response data ->
                    state (run c env m log).1 = Fulfilled data)
              /\ (forall error, transport env (length log) r0 = Failure error ->
                    state (run c env m log).1 = intercept (Failure error))) as Hfin.
  { intros r Hrun Hs. exists r. split; [done|]. split; [done|]. rewrite Hrun.
    split; intros x Hx; cbn [fst state]; by rewrite Hx. }
  destruct m; try discriminate Hm; cbn [required] in Hreq;
    repeat match goal with
           | H : Forall _ (_ :: _) |- _ => apply Forall_cons in H as [? H]
           end;
    try match goal with
        | d : option string |- _ => destruct (Js.truthy (Js.opt_str d)) eqn:Hd
        end;
    (eapply Hfin;
     [ cbn [run];
       unfold getNetworks, getDexes, getPool, getTopPools, getNewPools,
         getTrendingPools, getTrendingPoolsByNetwork, getToken, getTrades,
         searchPools;
       repeat match goal with
              | Ht : Js.truthy ?v = true |- _ => rewrite Ht; clear Ht
              end;
       cbn [negb]; rewrite ?Hd;
       apply _get_eq
     | simpl; auto ]).
Qed.

End EveryMethod.

Lemma missing_argument_rejected_witness :
  exists message,
    run default_client (scripted [] 0)
      (GetTrades (VStr "eth") (VStr "") {| trade_volume_in_usd_greater_than := None;
                                           cursor := None |}) []
    = (rejected_now (Js.new_Error message), [])
    /\ message ∈ required_messages.
Proof.
  apply (missing_argument_rejected (H:=symbolic_numbers) default_client
           (scripted [] 0) _ [] (VStr "")); [|reflexivity].
  right. left.
Defined.

Lemma pass_through_result_witness :
  exists r,
    sends (GetToken (VStr "eth") (VStr "0xc02") {| include := Some ["top_pools"] |})
      (req_endpoint r) (req_params r)
    /\ run default_client (scripted [(Response sample_pool, 3%nat)] 0)
         (GetToken (VStr "eth") (VStr "0xc02") {| include := Some ["top_pools"] |}) []
       = ({| settled := 4; state := intercept (Response sample_pool) |}, [r]).
Proof.
  destruct (pass_through_result (H:=symbolic_numbers) default_client
              (scripted [(Response sample_pool, 3%nat)] 0)
              (GetToken (VStr "eth") (VStr "0xc02") {| include := Some ["top_pools"] |})
              [] eq_refl)
    as (r & Hs & Hrun & _).
  - repeat constructor.
  - exists r. split; [exact Hs|]. exact Hrun.
Defined.

(** ** [getPoolInfo] and the optional scope of the listings *)

Section InfoAndScope.
Context `{JsNumber}.
Implicit Types (c : GeckoTerminal) (env : Env) (log : list request).

(** The handler never resolves: what it returns is a rejection. *)
Lemma handler_rejects error o :
  _handleRequestError error = Ok o -> exists e, o = Rejected e.
Proof.
  unfold _handleRequestError, mbind, throws_bind. intros Hh.
  repeat case_match; simplify_eq; eauto.
Qed.

Lemma intercept_failure error : exists e, intercept (Failure error) = Rejected e.
Proof.
  unfold intercept. destruct (_handleRequestError error) as [o|e] eqn:Hh; [|eauto].
  by apply handler_rejects in Hh.
Qed.

(** [getPoolInfo] with its arguments given sends one request without
    parameters to the [/info] endpoint.  It returns the [data] of the
    response as the [tokens] of a [pool_info] record named after network
    and pool; a body that is [null] or [undefined] makes it throw although
    the request succeeded; a failure is rejected as the normaliser left
    it. *)
Theorem getPoolInfo_result c env network poolAddress log :
  Js.truthy network = true -> Js.truthy poolAddress = true ->
  let r := axios_get c
             ("/networks/" ++ Js.to_string network ++ "/pools/"
              ++ Js.to_string poolAddress ++ "/info") [] in
  (getPoolInfo c env network poolAddress log).2 = (log ++ [r])%list
  /\ (forall body tokens,
        transport env (length log) r = Response body ->
        JsProp.get body "data" = Ok tokens ->
        state (getPoolInfo c env network poolAddress log).1
        = Fulfilled (VObj [("data", VObj [
            ("id", VStr (Js.to_string network ++ "_"
                         ++ Js.to_string poolAddress ++ "_info"));
            ("type", VStr "pool_info");
            ("attributes", VObj [("tokens", tokens)])])]))
  /\ (forall body,
        transport env (length log) r = Response body ->
        body = VNull \/ body = VUndef ->
        state (getPoolInfo c env network poolAddress log).1 = Rejected Js.TypeError)
  /\ (forall error,
        transport env (length log) r = Failure error ->
        state (getPoolInfo c env network poolAddress log).1
        = intercept (Failure error)).
Proof.
  intros Hn Ha r. unfold getPoolInfo. rewrite Hn, Ha. cbn [negb].
  rewrite _get_eq. fold r. cbn [fst snd]. split_and!; [done|..].
  - intros body tokens Hb Ht. unfold and_then. cbn [state]. rewrite Hb.
    cbn [intercept]. by rewrite Ht.
  - intros body Hb Hnull. unfold and_then. cbn [state]. rewrite Hb.
    cbn [intercept]. by destruct Hnull as [-> | ->].
  - intros error He. destruct (intercept_failure error) as [e Hrej].
    rewrite Hrej. apply and_then_rejected. cbn [state]. by rewrite He.
Qed.

(** The optional scope of [getTopPools] ([dex]), [getNewPools] and
    [searchPools] ([network]) selects the endpoint; a scope that is the
    empty string counts as omitted. *)
Theorem optional_scope_endpoint c env network (scope : option string) query inc pg :
  Js.truthy network = true -> Js.truthy query = true ->
  let given := match scope with Some s => negb (String.eqb s "") | None => false end in
  let name := from_option id "" scope in
  req_endpoint <$> requests_of c env (GetTopPools network scope inc pg)
  = [if given
     then "/networks/" ++ Js.to_string network ++ "/dexes/" ++ name ++ "/pools"
     else "/networks/" ++ Js.to_string network ++ "/pools"]
  /\ req_endpoint <$> requests_of c env (GetNewPools scope inc pg)
     = [if given then "/networks/" ++ name ++ "/new_pools" else "/networks/new_pools"]
  /\ req_endpoint <$> requests_of c env (SearchPools query scope inc pg)
     = [if given then "/networks/" ++ name ++ "/search/pools" else "/search/pools"].
Proof.
  intros Hn Hq given name. subst given name. unfold requests_of. cbn [run].
  unfold getTopPools, getNewPools, searchPools. rewrite Hn, Hq. cbn [negb].
  destruct scope as [s|]; cbn [Js.opt_str Js.truthy from_option id Js.to_string];
    [destruct (String.eqb s "")|]; by cbn [negb].
Qed.

End InfoAndScope.

Lemma getPoolInfo_result_witness :
  state (getPoolInfo default_client
           (scripted [(Response (VObj [("data", VArr [VStr "weth"; VStr "usdc"])]),
                       0%nat)] 0)
           (VStr "eth") (VStr "0xabc") []).1
  = Fulfilled (VObj [("data", VObj [
      ("id", VStr "eth_0xabc_info");
      ("type", VStr "pool_info");
      ("attributes", VObj [("tokens", VArr [VStr "weth"; VStr "usdc"])])])]).
Proof.
  exact (proj1 (proj2 (getPoolInfo_result (H:=symbolic_numbers) default_client
           (scripted [(Response (VObj [("data", VArr [VStr "weth"; VStr "usdc"])]),
                       0%nat)] 0)
           (VStr "eth") (VStr "0xabc") [] eq_refl eq_refl))
         _ _ eq_refl eq_refl).
Defined.

Lemma optional_scope_endpoint_witness :
  req_endpoint <$> requests_of default_client (scripted [] 0)
                     (GetTopPools (VStr "eth") (Some "") no_include no_paging)
  = ["/networks/eth/pools"].
Proof.
  exact (proj1 (optional_scope_endpoint (H:=symbolic_numbers) default_client
                  (scripted [] 0) (VStr "eth") (Some "") (VStr "ETH")
                  no_include no_paging eq_refl eq_refl)).
Defined.

(** ** The candles of [getPoolOhlcv] *)

Section Candles.
Context `{JsNumber}.
Implicit Types (c : GeckoTerminal) (env : Env) (log : list request).


Lemma base_price_unreadable pool e :
  base_price_of pool = Throw e ->
  e = Js.TypeError
  /\ (JsProp.get pool "data" = Throw Js.TypeError
      \/ exists data,
           JsProp.get pool "data" = Ok data
           /\ (JsProp.get data "attributes" = Throw Js.TypeError
               \/ exists attributes,
                    JsProp.get data "attributes" = Ok attributes
                    /\ JsProp.get attributes "base_token_price_usd"
                       = Throw Js.TypeError)).
Proof.
  assert (forall v k e', JsProp.get v k = Throw e' -> e' = Js.TypeError) as Hget
    by (intros [] ?? ; naive_solver).
  unfold base_price_of. intros Hprice.
  destruct (JsProp.get pool "data") as [data|e1] eqn:Hd.
  2:{ pose proof (Hget _ _ _ Hd) as ->. injection Hprice as <-. by split; [|left]. }
  rewrite bind_Ok in Hprice.
  destruct (JsProp.get data "attributes") as [attributes|e1] eqn:Ha.
  2:{ pose proof (Hget _ _ _ Ha) as ->. injection Hprice as <-.
      split; [done|right]. exists data. split; [done|by left]. }
  rewrite bind_Ok in Hprice. pose proof (Hget _ _ _ Hprice) as ->.
  split; [done|right]. exists data. split; [done|right]. by exists attributes.
Qed.


(** Over a pool whose price cannot be read, the first iteration of the loop
    throws a [TypeError]; a loop of no iteration returns no candle whatever
    the pool is. *)
Lemma mock_candles_unreadable env pool e interval count start :
  base_price_of pool = Throw e ->
  mock_candles env pool interval count start
  = if Nat.eqb count 0 then Ok [] else Throw Js.TypeError.
Proof.
  intros [_ Hwhere]%base_price_unreadable. destruct count as [|count]; [done|].
  cbn [mock_candles Nat.eqb].
  destruct Hwhere as [Hd | (data & Hd & [Ha | (attributes & Ha & Hp)])].
  - by rewrite Hd.
  - by rewrite Hd, bind_Ok, Ha.
  - by rewrite Hd, bind_Ok, Ha, bind_Ok, Hp.
Qed.


(** A valid call of [getPoolOhlcv] whose pool fetch got the answer [pool]. *)
Lemma getPoolOhlcv_on_pool c env network poolAddress options log pool :
  Js.truthy network = true -> Js.truthy poolAddress = true ->
  includes validTimeframes (from_option id "day" (timeframe options)) = true ->
  includes validCurrencies (from_option id "usd" (currency options)) = true ->
  from_option id 100 (limit options) <= 1000 ->
  transport env (length log)
    (axios_get c
       ("/networks/" ++ Js.to_string network ++ "/pools/" ++ Js.to_string poolAddress)
       [("include", VUndef)]) = Response pool ->
  state (getPoolOhlcv c env network poolAddress options log).1
  = match mock_candles env pool
            (seconds_of (from_option id "day" (timeframe options))
             * num_or (from_option id 1 (aggregate options)) 1)
            (Z.to_nat (num_or (from_option id 100 (limit options)) 100)) 0 with
    | Ok candles => Fulfilled (VObj [("data", VArr candles)])
    | Throw e => Rejected e
    end.
Proof.
  intros Hn Ha Htf Hcur Hlim%Z.ltb_ge Hpool. unfold getPoolOhlcv, getPool.
  rewrite Hn, Ha, Htf, Hcur, Hlim. cbn [negb]. rewrite _get_eq. cbn [fst].
  unfold and_then. cbn [state settled].
  change (_buildIncludeParams _) with VUndef. rewrite Hpool. cbn [intercept].
  by destruct (mock_candles _ _ _ _ _).
Qed.


(** The edges of the loop.  With a negative [limit] (it passes the check
    [limit > 1000]) the pool is fetched and the result is the empty list
    whatever the answer holds.  With any other [limit], an answer whose
    price cannot be read makes the method throw a [TypeError] after the
    request succeeded. *)
Theorem getPoolOhlcv_limit_edges c env network poolAddress options log body :
  let tf := from_option id "day" (timeframe options) in
  let cur := from_option id "usd" (currency options) in
  let lim := from_option id 100 (limit options) in
  Js.truthy network = true -> Js.truthy poolAddress = true ->
  includes validTimeframes tf = true -> includes validCurrencies cur = true ->
  lim <= 1000 ->
  transport env (length log)
    (axios_get c
       ("/networks/" ++ Js.to_string network ++ "/pools/" ++ Js.to_string poolAddress)
       [("include", VUndef)]) = Response body ->
  (lim < 0 ->
   state (getPoolOhlcv c env network poolAddress options log).1
   = Fulfilled (VObj [("data", VArr [])]))
  /\ (0 <= lim -> forall e, base_price_of body = Throw e ->
      state (getPoolOhlcv c env network poolAddress options log).1
      = Rejected Js.TypeError).
Proof.
  intros tf cur lim Hn Ha Htf Hcur Hlim Hbody.
  rewrite (getPoolOhlcv_on_pool _ _ _ _ _ _ _ Hn Ha Htf Hcur Hlim Hbody).
  subst tf cur. fold lim. clearbody lim. split.
  - intros Hneg. unfold num_or. destruct (Z.eqb_spec lim 0) as [|_]; [lia|].
    by replace (Z.to_nat lim) with 0%nat by lia.
  - intros Hpos e He. rewrite (mock_candles_unreadable _ _ _ _ _ _ He).
    destruct (Nat.eqb_spec (Z.to_nat (num_or lim 100)) 0) as [Hz|]; [|done].
    unfold num_or in Hz. destruct (Z.eqb_spec lim 0); lia.
Qed.

(** [limit: 0] and [aggregate: 0] are read as the defaults 100 and 1: the
    call is the one with the option left out. *)
Lemma getPoolOhlcv_zero_is_default c env network poolAddress log tf agg bt lim cur tok :
  getPoolOhlcv c env network poolAddress
    {| timeframe := tf; aggregate := agg; before_timestamp := bt;
       limit := Some 0; currency := cur; token := tok |} log
  = getPoolOhlcv c env network poolAddress
      {| timeframe := tf; aggregate := agg; before_timestamp := bt;
         limit := None; currency := cur; token := tok |} log
  /\ getPoolOhlcv c env network poolAddress
       {| timeframe := tf; aggregate := Some 0; before_timestamp := bt;
          limit := lim; currency := cur; token := tok |} log
     = getPoolOhlcv c env network poolAddress
         {| timeframe := tf; aggregate := None; before_timestamp := bt;
            limit := lim; currency := cur; token := tok |} log.
Proof. split; reflexivity. Qed.

End Candles.


Lemma getPoolOhlcv_limit_edges_witness :
  state (getPoolOhlcv default_client (scripted [(Response VNull, 0%nat)] 1000)
           (VStr "eth") (VStr "0xabc")
           {| timeframe := None; aggregate := None; before_timestamp := None;
              limit := Some (-1); currency := None; token := None |} []).1
  = Fulfilled (VObj [("data", VArr [])])
  /\ state (getPoolOhlcv default_client (scripted [(Response VNull, 0%nat)] 1000)
              (VStr "eth") (VStr "0xabc") no_ohlcv_options []).1
     = Rejected Js.TypeError.
Proof.
  split.
  - exact (proj1 (getPoolOhlcv_limit_edges (H:=symbolic_numbers) default_client
             (scripted [(Response VNull, 0%nat)] 1000) (VStr "eth") (VStr "0xabc")
             {| timeframe := None; aggregate := None; before_timestamp := None;
                limit := Some (-1); currency := None; token := None |} [] VNull
             eq_refl eq_refl eq_refl eq_refl ltac:(simpl; lia) eq_refl)
           ltac:(simpl; lia)).
  - exact (proj2 (getPoolOhlcv_limit_edges (H:=symbolic_numbers) default_client
             (scripted [(Response VNull, 0%nat)] 1000) (VStr "eth") (VStr "0xabc")
             no_ohlcv_options [] VNull
             eq_refl eq_refl eq_refl eq_refl ltac:(simpl; lia) eq_refl)
           ltac:(simpl; lia) Js.TypeError eq_refl).
Defined.

(** ** Failures *)

Section Failures.
Context `{JsNumber}.
Implicit Types (c : GeckoTerminal) (env : Env) (m : call) (log : list request).

(** The error the normaliser rejects with is one it leaves alone: given
    that error again (it carries neither [response] nor [request] unless
    it is the original setup failure), the normaliser rejects with it
    unchanged. *)
Theorem handler_idempotent error e :
  _handleRequestError error = Ok (Rejected e) ->
  _handleRequestError e = Ok (Rejected e).
Proof.
  intros Hh. destruct error as [| |b|n|s|l|fields];
    try discriminate Hh; try (by injection Hh as <-).
  destruct (kind_of fields) eqn:Hk.
  - destruct (handle_server_response _ _ Hk Hh)
      as (message & status & data & _ & _ & [= ->]).
    reflexivity.
  - rewrite (handle_no_response _ Hk) in Hh. by injection Hh as <-.
  - rewrite (handle_setup_failure _ Hk) in Hh. injection Hh as <-.
    by apply handle_setup_failure.
Qed.

Lemma map_calls_all_rejected
    (f : value -> list request -> promise * list request) items log :
  (forall x log0, exists e, state (f x log0).1 = Rejected e) ->
  Forall (fun p => exists e, state p = Rejected e) (map_calls f items log).1.
Proof.
  intros Hf. revert log. induction items as [|x items IH]; intros log; simpl.
  - constructor.
  - specialize (Hf x log). destruct (f x log) as [p log1]. specialize (IH log1).
    destruct (map_calls f items log1) as [ps log2]. by constructor.
Qed.

Lemma Promise_all_all_rejected ps k :
  ps ≠ [] -> Forall (fun p => exists e, state p = Rejected e) ps ->
  exists e, state (and_then (Promise_all ps) k) = Rejected e.
Proof.
  destruct ps as [|p ps]; [done|]. intros _ Hall.
  apply Forall_cons in Hall as [[e He] _].
  destruct (Promise_all_rejected (p :: ps) 0 p e eq_refl He)
    as (j & q & e' & _ & _ & Hall & _).
  exists e'. apply and_then_rejected. by rewrite Hall.
Qed.

(** No method resolves unless the API answered: where every request
    fails, every call of every method is rejected, the calls that
    compute their result ([getPoolInfo], [getPoolOhlcv], [getPools],
    [getPrices]) included. *)
Theorem failed_transport_rejected c env m log :
  (forall k r, exists error, transport env k r = Failure error) ->
  exists e, state (run c env m log).1 = Rejected e.
Proof.
  intros Hfail.
  assert (forall endpoint params log0,
            exists e, state (_get c env endpoint params log0).1 = Rejected e) as Hget.
  { intros endpoint params log0. rewrite _get_eq. cbn [fst state].
    destruct (Hfail (length log0) (axios_get c endpoint params)) as [error ->].
    apply intercept_failure. }
  assert (forall n a o log0, exists e, state (getPool c env n a o log0).1 = Rejected e)
    as Hpool.
  { intros n a o log0. unfold getPool. preflight; eauto. }
  assert (forall n a o log0, exists e, state (getToken c env n a o log0).1 = Rejected e)
    as Htoken.
  { intros n a o log0. unfold getToken. preflight; eauto. }
  destruct m; cbn [run]; try apply Hpool; try apply Htoken;
    unfold getNetworks, getDexes, getTopPools, getNewPools,
      getTrendingPools, getTrendingPoolsByNetwork, getTrades, searchPools;
    try (preflight; by eauto).
  - unfold getPools. preflight; eauto.
    pose proof (map_calls_all_rejected (pool_call c env network options)
                  (Js.items poolAddresses) log (fun x log0 => Hpool _ _ _ _)) as Hall.
    pose proof (map_calls_length (pool_call c env network options)
                  (Js.items poolAddresses) log) as Hlen.
    destruct (map_calls _ _ _) as [ps log']. cbn [fst] in *.
    apply Promise_all_all_rejected; [|done].
    intros ->. simpl in Hlen.
    match goal with
    | Hg : _ || (length _ =? 0)%nat = false |- _ =>
        apply orb_false_iff in Hg as [_ Hg]; by rewrite <-Hlen in Hg
    end.
  - unfold getPoolInfo. preflight; eauto.
    destruct (Hget ("/networks/" ++ Js.to_string network ++ "/pools/"
                    ++ Js.to_string poolAddress ++ "/info") [] log) as [e He].
    destruct (_get _ _ _ _ _) as [p log']. exists e. by apply and_then_rejected.
  - unfold getPrices. preflight; eauto.
    pose proof (map_calls_all_rejected (token_call c env network)
                  (Js.items tokenAddresses) log (fun x log0 => Htoken _ _ _ _)) as Hall.
    pose proof (map_calls_length (token_call c env network)
                  (Js.items tokenAddresses) log) as Hlen.
    destruct (map_calls _ _ _) as [ps log']. cbn [fst] in *.
    apply Promise_all_all_rejected; [|done].
    intros ->. simpl in Hlen.
    match goal with
    | Hg : _ || (length _ =? 0)%nat = false |- _ =>
        apply orb_false_iff in Hg as [_ Hg]; by rewrite <-Hlen in Hg
    end.
  - unfold getPoolOhlcv. preflight; eauto.
    destruct (Hpool network poolAddress {| include := None |} log) as [e He].
    destruct (getPool _ _ _ _ _ _) as [p log']. exists e. by apply and_then_rejected.
Qed.

End Failures.

Lemma handler_idempotent_witness :
  _handleRequestError
    (VObj [("message", VStr "GeckoTerminal API Error: 404 - Pool not found");
           ("status", VNum 404);
           ("data", VObj [("errors", VArr [VObj [("title", VStr "Pool not found")]])])])
  = Ok (Rejected
    (VObj [("message", VStr "GeckoTerminal API Error: 404 - Pool not found");
           ("status", VNum 404);
           ("data", VObj [("errors", VArr [VObj [("title", VStr "Pool not found")]])])])).
Proof.
  exact (handler_idempotent
           (server_failure (VNum 404)
              (VObj [("errors", VArr [VObj [("title", VStr "Pool not found")]])]))
           _ eq_refl).
Defined.

Lemma failed_transport_rejected_witness :
  exists e,
    state (run default_client (scripted [] 0)
             (GetPrices (VStr "eth") (VArr [VStr "0xa"; VStr "0xb"])) []).1
    = Rejected e.
Proof.
  apply (failed_transport_rejected (H:=symbolic_numbers)).
  intros k r. exists no_response. reflexivity.
Defined.

(** ** Results and refusals of the fan-out *)

Section FanOutResults.
Context `{JsNumber}.
Implicit Types (c : GeckoTerminal) (env : Env) (log : list request).

Lemma Promise_all_fulfilled_inv (ps : list promise) v :
  state (Promise_all ps) = Fulfilled v ->
  exists rs, v = VArr rs /\ state <$> ps = Fulfilled <$> rs.
Proof.
  unfold Promise_all. pose proof (first_rejection_earliest ps) as Hall.
  destruct (first_rejection ps) as [[t e]|]; [done|]. cbn [state].
  intros [= <-]. exists (fulfilled_values ps). split; [done|].
  induction ps as [|p ps IH]; [done|].
  destruct (Hall 0%nat p eq_refl) as [r Hr]. cbn [fulfilled_values fmap list_fmap].
  rewrite Hr. cbn [fmap list_fmap]. f_equal.
  apply IH. intros i q Hq. by apply (Hall (S i)).
Qed.

(** What the callback of [results.map] in [getPrices] returns: a record of
    type [token_price] whose price and change are never falsy (a missing
    or empty one is "0"); it throws nothing but a [TypeError]. *)
Lemma token_price_shape result :
  match token_price result with
  | Ok p =>
      exists id address usd change,
        p = VObj [("id", id); ("type", VStr "token_price");
                  ("attributes", VObj [("address", address); ("price_usd", usd);
                     ("price_24h_change_percentage", change)])]
        /\ Js.truthy usd = true /\ Js.truthy change = true
  | Throw e => e = Js.TypeError
  end.
Proof.
  assert (forall v k e', JsProp.get v k = Throw e' -> e' = Js.TypeError) as Hget
    by (intros [] ?? ; naive_solver).
  assert (forall x, Js.truthy (Js.or_else x (VStr "0")) = true) as Hor.
  { intros x. unfold Js.or_else. by destruct (Js.truthy x) eqn:Hx. }
  unfold token_price.
  destruct (JsProp.get result "data") as [token|e] eqn:H1; [|by apply Hget in H1].
  rewrite bind_Ok.
  destruct (JsProp.get token "id") as [id|e] eqn:H2; [|by apply Hget in H2].
  rewrite bind_Ok.
  destruct (JsProp.get token "attributes") as [attributes|e] eqn:H3;
    [|by apply Hget in H3].
  rewrite bind_Ok.
  destruct (JsProp.get attributes "address") as [address|e] eqn:H4;
    [|by apply Hget in H4].
  rewrite bind_Ok.
  destruct (JsProp.get attributes "price_usd") as [usd|e] eqn:H5;
    [|by apply Hget in H5].
  rewrite bind_Ok.
  destruct (JsProp.get attributes "price_24h_change_percentage") as [change|e] eqn:H6;
    [|by apply Hget in H6].
  rewrite bind_Ok. eexists _, _, _, _. by split_and!.
Qed.

(** Whenever [getPrices] resolves, its value is [{ data }] with one
    [token_price] record per address given, between 1 and 30 of them,
    each with a price and a change that are not falsy. *)
Theorem getPrices_fulfilled_shape c env network tokenAddresses log v :
  state (getPrices c env network tokenAddresses log).1 = Fulfilled v ->
  exists prices,
    v = VObj [("data", VArr prices)]
    /\ length prices = length (Js.items tokenAddresses)
    /\ (0 < length prices <= 30)%nat
    /\ Forall (fun p =>
         exists id address usd change,
           p = VObj [("id", id); ("type", VStr "token_price");
                     ("attributes", VObj [("address", address); ("price_usd", usd);
                        ("price_24h_change_percentage", change)])]
           /\ Js.truthy usd = true /\ Js.truthy change = true) prices.
Proof.
  unfold getPrices.
  destruct (negb (Js.truthy network)); [done|].
  destruct (_ || _) eqn:Hguard; [done|].
  apply orb_false_iff in Hguard as [_ Hne%Nat.eqb_neq].
  destruct (30 <? _)%nat eqn:Hmax; [done|]. apply Nat.ltb_ge in Hmax.
  pose proof (map_calls_length (token_call c env network)
                (Js.items tokenAddresses) log) as Hlen.
  destruct (map_calls _ _ _) as [ps log']. cbn [fst] in *.
  unfold and_then. destruct (state (Promise_all ps)) as [rs_v|e] eqn:Hall.
  2:{ by rewrite Hall. }
  cbn [state]. apply Promise_all_fulfilled_inv in Hall as (rs & -> & Hrs).
  cbn [JsProp.map].
  destruct (JsProp.map_items token_price rs) as [prices|e] eqn:Hmap; [|done].
  rewrite !bind_Ok. intros [= <-]. exists prices.
  apply map_items_Forall2 in Hmap.
  assert (length prices = length (Js.items tokenAddresses)) as Hcount.
  { rewrite <-(Forall2_length _ _ _ Hmap), <-Hlen.
    apply (f_equal length) in Hrs. by rewrite !length_fmap in Hrs. }
  split_and!; [done|done|lia|lia|].
  clear -Hmap. induction Hmap as [|r p rs prices Hp _ IH]; constructor; [|done].
  pose proof (token_price_shape r) as Hshape. by rewrite Hp in Hshape.
Qed.

End FanOutResults.

Lemma getPrices_fulfilled_shape_witness :
  exists prices,
    state (getPrices default_client
             (scripted [(Response (VObj [("data", VObj [
                           ("id", VStr "eth_0xa");
                           ("attributes", VObj [("address", VStr "0xa")])])]),
                         0%nat)] 0)
             (VStr "eth") (VArr [VStr "0xa"]) []).1
    = Fulfilled (VObj [("data", VArr prices)])
    /\ length prices = 1%nat.
Proof.
  destruct (getPrices_fulfilled_shape (H:=symbolic_numbers) default_client
             (scripted [(Response (VObj [("data", VObj [
                           ("id", VStr "eth_0xa");
                           ("attributes", VObj [("address", VStr "0xa")])])]),
                         0%nat)] 0)
             (VStr "eth") (VArr [VStr "0xa"]) [] _ eq_refl)
    as (prices & Hv & Hlen & _).
  exists prices. split; [by rewrite <-Hv | exact Hlen].
Defined.

Section FalsyAddress.
Context `{JsNumber}.
Variables (c : GeckoTerminal) (env : Env) (network : value).
Hypothesis network_given : Js.truthy network = true.

(** Mapped calls of a method that refuses a falsy item at once and sends
    one request for any other: the rejection [Promise.all] reports is the
    refusal, which is there before any reply, and the requests are those
    of the other items. *)
Lemma map_calls_refusal (f : value -> list request -> promise * list request)
    (g : value -> request) (refusal : value) items log a :
  (forall x log0, Js.truthy x = false -> f x log0 = (rejected_now refusal, log0)) ->
  (forall x log0, Js.truthy x = true ->
     exists p, f x log0 = (p, (log0 ++ [g x])%list) /\ (0 < settled p)%nat) ->
  a ∈ items -> Js.truthy a = false ->
  Promise_all (map_calls f items log).1 = rejected_now refusal
  /\ (map_calls f items log).2 = (log ++ (g <$> List.filter Js.truthy items))%list.
Proof.
  intros Hrefused Hsent Ha Hfalsy. split.
  - apply list_elem_of_lookup in Ha as [i Hi].
    pose proof (map_calls_lookup f items log i a Hi) as Hp.
    rewrite Hrefused in Hp by done. cbn [fst] in Hp.
    destruct (Promise_all_rejected _ _ _ _ Hp eq_refl)
      as (j & q & e' & Hj & Hq & -> & Hmin).
    specialize (Hmin _ _ _ Hp eq_refl). cbn [rejected_now settled] in Hmin.
    assert (is_Some (items !! j)) as [b Hb].
    { apply lookup_lt_is_Some. rewrite <-(map_calls_length f items log).
      by apply lookup_lt_is_Some. }
    rewrite (map_calls_lookup f items log j b Hb) in Hj. injection Hj as <-.
    destruct (Js.truthy b) eqn:Htruthy.
    + destruct (Hsent b (map_calls f (take j items) log).2 Htruthy) as (p & Hf & Hlate).
      rewrite Hf in Hmin. cbn [fst] in Hmin. lia.
    + rewrite Hrefused in Hq |- * by done. cbn [fst rejected_now state] in *.
      by injection Hq as <-.
  - clear Ha Hfalsy a. revert log. induction items as [|x items IH]; intros log.
    + simpl. by rewrite app_nil_r.
    + cbn [map_calls List.filter]. destruct (Js.truthy x) eqn:Hx.
      * destruct (Hsent x log Hx) as (p & -> & _). specialize (IH (log ++ [g x])%list).
        destruct (map_calls f items _) as [ps log2]. cbn [snd] in *.
        rewrite IH. cbn [fmap list_fmap]. by rewrite <-app_assoc.
      * rewrite (Hrefused x log Hx). specialize (IH log).
        by destruct (map_calls f items log) as [ps log2].
Qed.

(** A falsy address among the addresses of [getPools] or [getPrices]
    (an empty string, [undefined], [null]): the other addresses are
    requested, one request each, and the call is rejected with the refusal
    of the single call, at once and whatever the replies are. *)
Theorem fan_out_falsy_address (items : list value) options log a :
  a ∈ items -> Js.truthy a = false ->
  (getPools c env network (VArr items) options log).1
  = rejected_now (Js.new_Error "Pool address parameter is required")
  /\ (getPools c env network (VArr items) options log).2
     = (log ++ ((fun x =>
          axios_get c
            ("/networks/" ++ Js.to_string network ++ "/pools/" ++ Js.to_string x)
            [("include", _buildIncludeParams (include_of options))])
          <$> List.filter Js.truthy items))%list
  /\ ((length items <= 30)%nat ->
      (getPrices c env network (VArr items) log).1
      = rejected_now (Js.new_Error "Token address parameter is required")
      /\ (getPrices c env network (VArr items) log).2
         = (log ++ ((fun x =>
              axios_get c
                ("/networks/" ++ Js.to_string network ++ "/tokens/" ++ Js.to_string x)
                [("include", VUndef)])
              <$> List.filter Js.truthy items))%list).
Proof.
  intros Ha Hfalsy.
  assert (items ≠ []) as Hne by (intros ->; by apply elem_of_nil in Ha).
  assert (forall e k, and_then (rejected_now e) k = rejected_now e) as Hthen by done.
  destruct (map_calls_refusal (pool_call c env network options)
              (fun x => axios_get c
                 ("/networks/" ++ Js.to_string network ++ "/pools/" ++ Js.to_string x)
                 [("include", _buildIncludeParams (include_of options))])
              (Js.new_Error "Pool address parameter is required") items log a)
    as [Hpools Hpools_log]; [| |done|done|].
  { intros x log0 Hx. by apply pool_call_refused. }
  { intros x log0 Hx. rewrite (pool_call_sent c env network network_given _ _ _ Hx).
    replace (_buildIncludeParams (include_of
               {| include := Some (from_option id [] (include options)) |}))
      with (_buildIncludeParams (include_of options))
      by (by destruct options as [[l|]]).
    eexists. split; [reflexivity|cbn [settled]; lia]. }
  destruct (map_calls_refusal (token_call c env network)
              (fun x => axios_get c
                 ("/networks/" ++ Js.to_string network ++ "/tokens/" ++ Js.to_string x)
                 [("include", VUndef)])
              (Js.new_Error "Token address parameter is required") items log a)
    as [Htokens Htokens_log]; [| |done|done|].
  { intros x log0 Hx. by apply token_call_refused. }
  { intros x log0 Hx. rewrite (token_call_sent c env network network_given _ _ Hx).
    eexists. split; [reflexivity|cbn [settled]; lia]. }
  rewrite (getPools_eq c env network network_given items options log Hne).
  cbn [fst snd]. rewrite Hpools, Hthen. split_and!; [done|done|].
  intros Hmax. rewrite (getPrices_eq c env network network_given items log Hne Hmax).
  cbn [fst snd]. by rewrite Htokens, Hthen.
Qed.

End FalsyAddress.

Lemma fan_out_falsy_address_witness :
  (getPools default_client (scripted [(Response sample_pool, 0%nat)] 0)
     (VStr "eth") (VArr [VStr "0xabc"; VStr ""]) no_include []).1
  = rejected_now (Js.new_Error "Pool address parameter is required")
  /\ req_endpoint <$> (getPools default_client
                         (scripted [(Response sample_pool, 0%nat)] 0)
                         (VStr "eth") (VArr [VStr "0xabc"; VStr ""]) no_include []).2
     = ["/networks/eth/pools/0xabc"].
Proof.
  destruct (fan_out_falsy_address (H:=symbolic_numbers) default_client
              (scripted [(Response sample_pool, 0%nat)] 0) (VStr "eth") eq_refl
              [VStr "0xabc"; VStr ""] no_include [] (VStr "")
              ltac:(apply list_elem_of_In; simpl; tauto) eq_refl)
    as (Hp & Hlog & _).
  split; [exact Hp | by rewrite Hlog].
Defined.

(** ** The constructor *)

Section Construction.
Context `{JsNumber}.
Variable version : string.

Lemma str_or_nonempty o d : d ≠ "" -> str_or o d ≠ "".
Proof.
  intros Hd. unfold str_or. destruct o as [s|]; [|done].
  by destruct (String.eqb_spec s "").
Qed.

Lemma str_or_fixed o d : d ≠ "" -> str_or (Some (str_or o d)) d = str_or o d.
Proof.
  intros Hd. pose proof (str_or_nonempty o d Hd) as Hne.
  cbn [str_or]. by destruct (String.eqb_spec (str_or o d) "").
Qed.

(** Whatever the options are, the client has a non-empty base URL and API
    version and carries an [Accept] and a [User-Agent] header; and the
    options read back from a client construct that client again. *)
Theorem constructor_normalises (options : GeckoTerminalOptions) :
  let client := constructor version options in
  baseUrl client ≠ ""
  /\ apiVersion client ≠ ""
  /\ is_Some (headers client !! "Accept")
  /\ is_Some (headers client !! "User-Agent")
  /\ baseURL (axios client) = baseUrl client ++ "/" ++ apiVersion client
  /\ constructor version
       {| opt_baseUrl := Some (baseUrl client);
          opt_apiVersion := Some (apiVersion client);
          opt_headers := Some (headers client) |}
     = client.
Proof.
  intros client. subst client. unfold constructor.
  cbn [baseUrl apiVersion headers axios baseURL opt_baseUrl opt_apiVersion
       opt_headers from_option id].
  split_and!.
  - by apply str_or_nonempty.
  - by apply str_or_nonempty.
  - apply lookup_union_is_Some. right. unfold default_headers.
    rewrite lookup_insert_ne by done. rewrite lookup_insert_eq. by eexists.
  - apply lookup_union_is_Some. right. unfold default_headers.
    rewrite lookup_insert_eq. by eexists.
  - done.
  - rewrite !str_or_fixed by done.
    by rewrite <-(assoc_L (∪)), (idemp_L (∪)).
Qed.

End Construction.

(** ** The build under [dist/] next to the source *)

Section Build.
Context `{JsNumber}.
Implicit Types (c : GeckoTerminal) (env : Env) (log : list request).

Lemma log_grows (log : list request) r : (log ++ [r])%list ≠ log.
Proof.
  intros Heq. apply (f_equal length) in Heq. rewrite length_app in Heq.
  simpl in Heq. lia.
Qed.

(** The four methods that differ between the source and the build refuse
    the same calls: whenever the method of the build sends nothing, the
    method of the source returns the same rejection and sends nothing
    either. *)
Theorem dist_refusals_agree c env network items poolAddress options ohlcv log :
  ((dist_getPools c env network items options log).2 = log ->
   getPools c env network items options log
   = dist_getPools c env network items options log)
  /\ ((dist_getPrices c env network items log).2 = log ->
      getPrices c env network items log = dist_getPrices c env network items log)
  /\ ((dist_getPoolInfo c env network poolAddress log).2 = log ->
      getPoolInfo c env network poolAddress log
      = dist_getPoolInfo c env network poolAddress log)
  /\ ((dist_getPoolOhlcv c env network poolAddress ohlcv log).2 = log ->
      getPoolOhlcv c env network poolAddress ohlcv log
      = dist_getPoolOhlcv c env network poolAddress ohlcv log).
Proof.
  unfold dist_getPools, getPools, dist_getPrices, getPrices, dist_getPoolInfo,
    getPoolInfo, dist_getPoolOhlcv, getPoolOhlcv.
  split_and!; preflight; try reflexivity; rewrite _get_eq; cbn [snd];
    intros Hlog; by apply log_grows in Hlog.
Qed.

(** Where the source fans out, the build batches: for a network and a
    non-empty list of non-empty addresses, [getPools] of the source sends
    one request per address, to the pool of that address, and [getPools]
    of the build sends one request to [/pools/multi] that carries the
    addresses joined by commas; likewise [getPrices] for at most 30
    tokens. *)
Theorem dist_batches c env network (addresses : list string) options log :
  Js.truthy network = true -> addresses ≠ [] -> Forall (fun a => a ≠ "") addresses ->
  let prefix := "/networks/" ++ Js.to_string network in
  let items := VArr (VStr <$> addresses) in
  (exists new, (getPools c env network items options log).2 = (log ++ new)%list
     /\ req_endpoint <$> new = (fun a => prefix ++ "/pools/" ++ a) <$> addresses)
  /\ (exists r, (dist_getPools c env network items options log).2 = (log ++ [r])%list
        /\ req_endpoint r = prefix ++ "/pools/multi"
        /\ Js.field "pool_addresses" (req_params r)
           = VStr (String.concat "," addresses))
  /\ ((length addresses <= 30)%nat ->
      (exists new, (getPrices c env network items log).2 = (log ++ new)%list
         /\ req_endpoint <$> new = (fun a => prefix ++ "/tokens/" ++ a) <$> addresses)
      /\ (exists r, (dist_getPrices c env network items log).2 = (log ++ [r])%list
            /\ req_endpoint r = prefix ++ "/tokens/prices"
            /\ Js.field "token_addresses" (req_params r)
               = VStr (String.concat "," addresses))).
Proof.
  intros Hn Hne Hall prefix items. subst prefix items.
  assert (VStr <$> addresses ≠ []) as Hne' by (by destruct addresses).
  assert (forall a : value, a ∈ VStr <$> addresses -> Js.truthy a = true) as Htruthy.
  { intros a (s & -> & Hs)%list_elem_of_fmap. rewrite Forall_forall in Hall.
    specialize (Hall s Hs). cbn [Js.truthy]. by destruct (String.eqb_spec s ""). }
  assert (length (VStr <$> addresses) ≠ 0)%nat as Hlen
    by (rewrite length_fmap; by destruct addresses).
  apply Nat.eqb_neq in Hlen.
  split_and!.
  - rewrite (getPools_eq c env network Hn _ options log Hne'). cbn [snd].
    erewrite map_calls_requests.
    2:{ intros a log0 Ha. rewrite (pool_call_sent c env network Hn _ _ _ (Htruthy a Ha)).
        reflexivity. }
    eexists. split; [reflexivity|]. rewrite <-!list_fmap_compose.
    by apply list_fmap_ext.
  - unfold dist_getPools. rewrite Hn. cbn [negb Js.truthy Js.isArray Js.items orb].
    rewrite Hlen, _get_eq. cbn [snd]. eexists. split_and!; [done|done|].
    cbn. by rewrite join_strings.
  - intros Hmax. split.
    + rewrite (getPrices_eq c env network Hn _ log Hne') by (by rewrite length_fmap).
      cbn [snd]. erewrite map_calls_requests.
      2:{ intros a log0 Ha. rewrite (token_call_sent c env network Hn _ _ (Htruthy a Ha)).
          reflexivity. }
      eexists. split; [reflexivity|]. rewrite <-!list_fmap_compose.
      by apply list_fmap_ext.
    + unfold dist_getPrices. rewrite Hn. cbn [negb Js.truthy Js.isArray Js.items orb].
      rewrite Hlen. rewrite length_fmap. apply Nat.ltb_ge in Hmax. rewrite Hmax.
      rewrite _get_eq. cbn [snd]. eexists. split_and!; [done|done|].
      cbn. by rewrite join_strings.
Qed.

(** [getNewPools] and [getPoolInfo] send one request in both revisions.
    With a network, [getNewPools] is the same method in both; without,
    the source asks [/networks/new_pools] and the build [/pools/new], with
    the same parameters.  [getPoolInfo] sends the same request in both
    and fails alike; what the build returns as it came, the source wraps
    (or throws on). *)
Theorem dist_single_requests c env (scope : option string) inc pg network poolAddress log :
  (Js.truthy (Js.opt_str scope) = true ->
   getNewPools c env scope inc pg log = dist_getNewPools c env scope inc pg log)
  /\ (Js.truthy (Js.opt_str scope) = false ->
      (getNewPools c env scope inc pg log).2
      = (log ++ [axios_get c "/networks/new_pools" (list_params inc pg)])%list
      /\ (dist_getNewPools c env scope inc pg log).2
         = (log ++ [axios_get c "/pools/new" (list_params inc pg)])%list)
  /\ (getPoolInfo c env network poolAddress log).2
     = (dist_getPoolInfo c env network poolAddress log).2
  /\ settled (getPoolInfo c env network poolAddress log).1
     = settled (dist_getPoolInfo c env network poolAddress log).1
  /\ (forall e, state (dist_getPoolInfo c env network poolAddress log).1 = Rejected e ->
      state (getPoolInfo c env network poolAddress log).1 = Rejected e).
Proof.
  unfold getNewPools, dist_getNewPools, getPoolInfo, dist_getPoolInfo.
  split_and!.
  - by intros ->.
  - by intros ->.
  - by preflight.
  - preflight; try done. rewrite _get_eq. cbn [fst]. unfold and_then.
    by destruct (state _).
  - intros e. preflight; try done. rewrite _get_eq. cbn [fst].
    by apply and_then_rejected.
Qed.

End Build.

Lemma dist_batches_witness :
  req_endpoint <$> (getPools default_client (scripted [] 0) (VStr "eth")
                      (VArr [VStr "0xa"; VStr "0xb"]) no_include []).2
  = ["/networks/eth/pools/0xa"; "/networks/eth/pools/0xb"]
  /\ (fun r => (req_endpoint r, Js.field "pool_addresses" (req_params r)))
     <$> (dist_getPools default_client (scripted [] 0) (VStr "eth")
            (VArr [VStr "0xa"; VStr "0xb"]) no_include []).2
     = [("/networks/eth/pools/multi", VStr "0xa,0xb")].
Proof.
  destruct (dist_batches (H:=symbolic_numbers) default_client (scripted [] 0)
              (VStr "eth") ["0xa"; "0xb"] no_include []
              eq_refl ltac:(discriminate)
              ltac:(repeat constructor; discriminate))
    as ((new & Hnew & Hends) & (r & Hr & Hend & Hparam) & _).
  change (VStr <$> ["0xa"; "0xb"]) with [VStr "0xa"; VStr "0xb"] in Hnew, Hr.
  split.
  - rewrite Hnew. exact Hends.
  - rewrite Hr. cbn [app fmap list_fmap]. by rewrite Hend, Hparam.
Defined.

Lemma dist_refusals_agree_witness :
  getPrices default_client (scripted [] 0) (VStr "eth") (VStr "0xa") []
  = (rejected_now
       (Js.new_Error "Token addresses parameter is required and must be an array"), [])
  /\ getPoolOhlcv default_client (scripted [] 0) (VStr "eth") (VStr "0xabc")
       {| timeframe := Some "year"; aggregate := None; before_timestamp := None;
          limit := None; currency := None; token := None |} []
     = (rejected_now
          (Js.new_Error
             "Invalid timeframe: year. Must be one of: minute, hour, day, week, month"),
        []).
Proof.
  split.
  - exact (proj1 (proj2 (dist_refusals_agree (H:=symbolic_numbers) default_client
             (scripted [] 0) (VStr "eth") (VStr "0xa") (VStr "0xabc") no_include
             no_ohlcv_options [])) eq_refl).
  - exact (proj2 (proj2 (proj2 (dist_refusals_agree (H:=symbolic_numbers)
             default_client (scripted [] 0) (VStr "eth") (VStr "0xa") (VStr "0xabc")
             no_include
             {| timeframe := Some "year"; aggregate := None; before_timestamp := None;
                limit := None; currency := None; token := None |} []))) eq_refl).
Defined.

Lemma dist_single_requests_witness :
  req_endpoint <$> (getNewPools default_client (scripted [] 0) None
                      no_include no_paging []).2 = ["/networks/new_pools"]
  /\ req_endpoint <$> (dist_getNewPools default_client (scripted [] 0) None
                         no_include no_paging []).2 = ["/pools/new"].
Proof.
  destruct (proj1 (proj2 (dist_single_requests (H:=symbolic_numbers) default_client
              (scripted [] 0) None no_include no_paging (VStr "eth") (VStr "0xabc") []))
              eq_refl) as [Hsource Hbuild].
  split; [by rewrite Hsource | by rewrite Hbuild].
Defined.
